(** * kubemetrics: custom-resource metrics setup (operator-sdk, pkg/kube-metrics/metrics.go)

  A shallow embedding of [metrics.go] and the properties of its four
  functions: [GenerateAndServeCRMetrics], [generateMetricFamilies],
  [GetNamespacesForMetrics] and [isNamespaced].

  Go strings are byte sequences: they are [string] (lists of 8-bit
  [ascii]).  A Go result pair [(T, error)] is a pair [T * option error],
  [None] being the nil error.  Calls into the cluster client and into the
  metrics-store library are parameters of the development; they act on an
  abstract [World] and every call is recorded in a trace of events. *)

From Stdlib Require Import List String Ascii Bool Arith ZArith Lia.
Import ListNotations.
Local Open Scope list_scope.
Local Open Scope string_scope.

Set Implicit Arguments.

(* ================================================================= *)
(** ** Go's [errors] package *)

(** An error value is what [errors.New] builds; [Error] is its message. *)
Record error : Type := errors_New { Error : string }.

(* ================================================================= *)
(** ** Go's [strings] package, as far as [metrics.go] calls it *)

Module strings.

(** [strings.Contains(s, substr)]: [substr] occurs in [s] at some offset. *)
Fixpoint Contains (s substr : string) : bool :=
  prefix substr s ||
  match s with
  | EmptyString => false
  | String _ s' => Contains s' substr
  end.

(** The loop of [genSplit] for a non-empty separator: cut at every
    occurrence of [sep], left to right; [skip] counts the bytes of the
    separator just matched that are still to be dropped. *)
Fixpoint genSplit (sep : string) (skip : nat) (s : string) : list string :=
  match s with
  | EmptyString => [EmptyString]
  | String c s' =>
      match skip with
      | S k => genSplit sep k s'
      | O =>
          if prefix sep s
          then EmptyString :: genSplit sep (String.length sep - 1) s'
          else match genSplit sep 0 s' with
               | field :: fields => String c field :: fields
               | [] => [String c EmptyString]
               end
      end
  end.

(** [explode]: the empty-separator branch of [strings.Split], one element
    per byte (Go groups the bytes of a UTF-8 sequence; [metrics.go] only
    ever splits on [","], so this branch is not reached from it). *)
Fixpoint explode (s : string) : list string :=
  match s with
  | EmptyString => []
  | String c s' => String c EmptyString :: explode s'
  end.

(** [strings.Split(s, sep)]. *)
Definition Split (s sep : string) : list string :=
  match sep with
  | EmptyString => explode s
  | _ => genSplit sep 0 s
  end.

(** [strings.Join(elems, sep)], used to state what [Split] returns. *)
Fixpoint Join (elems : list string) (sep : string) : string :=
  match elems with
  | [] => EmptyString
  | [e] => e
  | e :: rest => e ++ sep ++ Join rest sep
  end.

(** A byte below [utf8.RuneSelf] (0x80). *)
Definition isASCIIbyte (c : ascii) : bool := (nat_of_ascii c <? 128)%nat.

Fixpoint isASCII (s : string) : bool :=
  match s with
  | EmptyString => true
  | String c s' => isASCIIbyte c && isASCII s'
  end.

(** [if c >= 'A' && c <= 'Z' { c += 'a' - 'A' }] *)
Definition lowerByte (c : ascii) : ascii :=
  let n := nat_of_ascii c in
  if ((65 <=? n) && (n <=? 90))%nat then ascii_of_nat (n + 32) else c.

Fixpoint mapBytes (f : ascii -> ascii) (s : string) : string :=
  match s with
  | EmptyString => EmptyString
  | String c s' => String (f c) (mapBytes f s')
  end.

(** [strings.ToLower(s)]: the byte loop on ASCII-only strings, and
    [Map(unicode.ToLower, s)] otherwise; the Unicode case mapping is the
    parameter [unicodeLower]. *)
Definition ToLower (unicodeLower : string -> string) (s : string) : string :=
  if isASCII s then mapBytes lowerByte s else unicodeLower s.

End strings.

(* ================================================================= *)
(** ** [k8s.io/apimachinery/pkg/runtime/schema] *)

Module schema.

Record GroupVersionKind : Type := {
  Group : string;
  Version : string;
  Kind : string
}.

(** [gvk.GroupVersion().String()]: ["group/version"], or the version
    alone for the legacy group with the empty name. *)
Definition GroupVersion_String (gvk : GroupVersionKind) : string :=
  if (0 <? String.length (Group gvk))%nat
  then Group gvk ++ "/" ++ Version gvk
  else Version gvk.

(** [gvk.String()] *)
Definition GroupVersionKind_String (gvk : GroupVersionKind) : string :=
  Group gvk ++ "/" ++ Version gvk ++ ", Kind=" ++ Kind gvk.

End schema.

(* ================================================================= *)
(** ** [k8s.io/apimachinery/pkg/apis/meta/v1]: the resource catalog *)

Module metav1.

(** The fields of [APIResource] that [metrics.go] reads, and its name. *)
Record APIResource : Type := {
  Name : string;
  Namespaced : bool;
  Kind : string
}.

Record APIResourceList : Type := {
  GroupVersion : string;
  APIResources : list APIResource
}.

End metav1.

(* ================================================================= *)
(** ** [unstructured.Unstructured] and [interface{}] arguments *)

Module unstructured.

(** A custom resource instance, seen through the two accessors used. *)
Record Unstructured : Type := {
  GetNamespace : string;
  GetName : string
}.

End unstructured.

(** The dynamic type of the [obj interface{}] handed to a generator. *)
Inductive object : Type :=
| ObjUnstructured (crd : unstructured.Unstructured)
| ObjOther.

(* ================================================================= *)
(** ** [k8s.io/kube-state-metrics/pkg/metric] *)

Module ksmetric.

Inductive MetricType : Type := Gauge | Counter.

(** [Value] is a [float64]; the only value built here is the constant 1. *)
Record Metric : Type := {
  LabelKeys : list string;
  LabelValues : list string;
  Value : Z
}.

Record Family : Type := { Metrics : list Metric }.

(** [GenerateFunc] returns [None] where the Go closure panics. *)
Record FamilyGenerator : Type := {
  Name : string;
  Type_ : MetricType;
  Help : string;
  GenerateFunc : object -> option Family
}.

End ksmetric.

(* ================================================================= *)
(** ** The pure functions of [metrics.go] *)

(** The inner loop of [isNamespaced]: the first resource of the kind. *)
Fixpoint isNamespaced_resources (kind : string)
  (apiResources : list metav1.APIResource) : option bool :=
  match apiResources with
  | [] => None
  | apiResource :: rest =>
      if String.eqb (metav1.Kind apiResource) kind
      then Some (metav1.Namespaced apiResource)
      else isNamespaced_resources kind rest
  end.

(** [isNamespaced]: the outer loop over the resource lists, the inner loop
    only in a list whose [GroupVersion] is the queried one; the error when
    both loops run out. *)
Fixpoint isNamespaced (gvk : schema.GroupVersionKind)
  (resourceLists : list metav1.APIResourceList) : bool * option error :=
  match resourceLists with
  | [] =>
      (false,
       Some (errors_New
         ("unable to find type: " ++ schema.GroupVersionKind_String gvk ++ " in server")))
  | resourceList :: rest =>
      if String.eqb (metav1.GroupVersion resourceList) (schema.GroupVersion_String gvk)
      then match isNamespaced_resources (schema.Kind gvk)
                   (metav1.APIResources resourceList) with
           | Some namespaced => (namespaced, None)
           | None => isNamespaced gvk rest
           end
      else isNamespaced gvk rest
  end.

(** The scan as the description of [isNamespaced] words it: among the
    resources of the lists whose [GroupVersion] is the queried one, taken in
    catalog order, the first of the queried kind decides. *)
Definition isNamespaced_firstMatch (gvk : schema.GroupVersionKind)
  (resourceLists : list metav1.APIResourceList) : bool * option error :=
  let sameGroupVersion := fun resourceList =>
    String.eqb (metav1.GroupVersion resourceList) (schema.GroupVersion_String gvk) in
  let sameKind := fun apiResource =>
    String.eqb (metav1.Kind apiResource) (schema.Kind gvk) in
  match find sameKind
          (flat_map metav1.APIResources (filter sameGroupVersion resourceLists)) with
  | Some apiResource => (metav1.Namespaced apiResource, None)
  | None =>
      (false,
       Some (errors_New
         ("unable to find type: " ++ schema.GroupVersionKind_String gvk ++ " in server")))
  end.

(** [matches gvk resourceList apiResource]: the catalog entry is recorded
    under the group/version string of [gvk] and has its kind. *)
Definition matches (gvk : schema.GroupVersionKind)
  (resourceList : metav1.APIResourceList) (apiResource : metav1.APIResource) : Prop :=
  metav1.GroupVersion resourceList = schema.GroupVersion_String gvk /\
  In apiResource (metav1.APIResources resourceList) /\
  metav1.Kind apiResource = schema.Kind gvk.

(** [firstMatch gvk lists resourceList apiResource]: the entry matches, and
    no entry before it in catalog order does, neither in an earlier list
    nor earlier in its own list. *)
Definition firstMatch (gvk : schema.GroupVersionKind)
  (lists : list metav1.APIResourceList)
  (resourceList : metav1.APIResourceList) (apiResource : metav1.APIResource) : Prop :=
  exists before after resourcesBefore resourcesAfter,
    lists = (before ++ resourceList :: after)%list /\
    metav1.APIResources resourceList
      = (resourcesBefore ++ apiResource :: resourcesAfter)%list /\
    metav1.GroupVersion resourceList = schema.GroupVersion_String gvk /\
    metav1.Kind apiResource = schema.Kind gvk /\
    (forall resourceList' apiResource',
       In resourceList' before -> ~ matches gvk resourceList' apiResource') /\
    (forall apiResource',
       In apiResource' resourcesBefore -> metav1.Kind apiResource' <> schema.Kind gvk).

(** The error that [isNamespaced] builds for a type it does not find. *)
Definition unableToFind (gvk : schema.GroupVersionKind) : error :=
  errors_New ("unable to find type: " ++ schema.GroupVersionKind_String gvk ++ " in server").

(** The number of bytes [c] in [s]: [strings.Count] for a one-byte
    substring. *)
Fixpoint countByte (c : ascii) (s : string) : nat :=
  match s with
  | EmptyString => 0
  | String b s' => (if Ascii.eqb c b then 1 else 0) + countByte c s'
  end.

(** An upper-case ASCII letter. *)
Definition isUpperByte (c : ascii) : bool :=
  ((65 <=? nat_of_ascii c) && (nat_of_ascii c <=? 90))%nat.

Section GenerateMetricFamilies.

(** [Map(unicode.ToLower, _)], the non-ASCII path of [strings.ToLower]. *)
Variable unicodeLower : string -> string.

Definition generateMetricFamilies (kind : string) : list ksmetric.FamilyGenerator :=
  let helpText := "Information about the " ++ kind ++ " custom resource." in
  let kindName := strings.ToLower unicodeLower kind in
  let metricName := kindName ++ "_info" in
  [ {| ksmetric.Name := metricName;
       ksmetric.Type_ := ksmetric.Gauge;
       ksmetric.Help := helpText;
       ksmetric.GenerateFunc := fun obj =>
         match obj with
         | ObjUnstructured crd =>
             Some {| ksmetric.Metrics :=
               [ {| ksmetric.LabelKeys := ["namespace"; kindName];
                    ksmetric.LabelValues :=
                      [unstructured.GetNamespace crd; unstructured.GetName crd];
                    ksmetric.Value := 1 |} ] |}
         | ObjOther => None
         end |} ].

End GenerateMetricFamilies.

Section GetNamespacesForMetrics.

(** [k8sutil.GetWatchNamespace()] reads the process environment [Env]. *)
Variable Env : Type.
Variable GetWatchNamespace : Env -> string * option error.

(** The nil slice returned with an error is the empty list. *)
Definition GetNamespacesForMetrics (operatorNs : string) (env : Env)
  : list string * option error :=
  let ns := [operatorNs] in
  let '(watchNamespace, err) := GetWatchNamespace env in
  match err with
  | Some e => ([], Some e)
  | None =>
      let ns := if strings.Contains watchNamespace ","
                then strings.Split watchNamespace ","
                else ns in
      (ns, None)
  end.

End GetNamespacesForMetrics.

(* ================================================================= *)
(** ** A small cluster, for concrete runs *)

Module Cluster.

Definition memcached : schema.GroupVersionKind :=
  {| schema.Group := "cache.example.com"; schema.Version := "v1alpha1";
     schema.Kind := "Memcached" |}.

Definition node : schema.GroupVersionKind :=
  {| schema.Group := ""; schema.Version := "v1"; schema.Kind := "Node" |}.

(** A kind that the catalog lists under another version only. *)
Definition backup : schema.GroupVersionKind :=
  {| schema.Group := "cache.example.com"; schema.Version := "v1alpha1";
     schema.Kind := "Backup" |}.


Definition catalog : list metav1.APIResourceList :=
  [ {| metav1.GroupVersion := "v1";
       metav1.APIResources :=
         [ {| metav1.Name := "pods"; metav1.Namespaced := true; metav1.Kind := "Pod" |};
           {| metav1.Name := "nodes"; metav1.Namespaced := false; metav1.Kind := "Node" |} ] |};
    {| metav1.GroupVersion := "cache.example.com/v1";
       metav1.APIResources :=
         [ {| metav1.Name := "backups"; metav1.Namespaced := false; metav1.Kind := "Backup" |} ] |};
    {| metav1.GroupVersion := "cache.example.com/v1alpha1";
       metav1.APIResources :=
         [ {| metav1.Name := "memcacheds"; metav1.Namespaced := true;
              metav1.Kind := "Memcached" |};
           {| metav1.Name := "memcacheds/status"; metav1.Namespaced := true;
              metav1.Kind := "Memcached" |} ] |} ].

(** The configuration says whether the API server can be reached; the
    world counts the calls served; a client and a store are named by what
    they were made for. *)
Definition getAPIResourceLists (reachable : bool) (w : nat)
  : list metav1.APIResourceList * option error * nat :=
  if reachable then (catalog, None, S w)
  else ([], Some (errors_New "connection refused"), S w).

Definition newClientForGVK (reachable : bool) (lists : list metav1.APIResourceList)
  (apiVersion kind : string) (w : nat) : string * option error * nat :=
  if String.eqb kind "Broken"
  then ("", Some (errors_New "no client for Broken"), S w)
  else (apiVersion ++ "/" ++ kind, None, S w).

Definition NewNamespacedMetricsStores (dclient : string) (ns : list string)
  (apiVersion kind : string) (metricFamilies : list ksmetric.FamilyGenerator)
  (w : nat) : list string * nat :=
  (map (fun n => dclient ++ "@" ++ n) ns, S w).

Definition NewClusterScopedMetricsStores (dclient : string)
  (apiVersion kind : string) (metricFamilies : list ksmetric.FamilyGenerator)
  (w : nat) : list string * nat :=
  ([dclient], S w).

(** The environment is the value of the watch-namespace variable, if set. *)
Definition GetWatchNamespace (env : option string) : string * option error :=
  match env with
  | Some v => (v, None)
  | None => ("", Some (errors_New "WATCH_NAMESPACE must be set"))
  end.

(** A catalog that lists one kind twice under one group/version, with
    different scopes. *)
Definition twice : list metav1.APIResourceList :=
  [ {| metav1.GroupVersion := "cache.example.com/v1alpha1";
       metav1.APIResources :=
         [ {| metav1.Name := "memcacheds"; metav1.Namespaced := false;
              metav1.Kind := "Memcached" |};
           {| metav1.Name := "memcacheds/status"; metav1.Namespaced := true;
              metav1.Kind := "Memcached" |} ] |} ].

End Cluster.

(* ================================================================= *)
(** ** [GenerateAndServeCRMetrics] and the calls it makes *)

Section Setup.

(** [*rest.Config], [dynamic.NamespaceableResourceInterface] and
    [*metricsstore.MetricsStore] are opaque here. *)
Variables Config Client Store : Type.

(** Everything outside the process that the calls read or change: the
    API server, the stores' reflectors, the goroutines started. *)
Variable World : Type.

Variable unicodeLower : string -> string.

(** The functions of package [kubemetrics] and of its libraries that
    [GenerateAndServeCRMetrics] calls; their code is in other files. *)
Variable getAPIResourceLists :
  Config -> World -> list metav1.APIResourceList * option error * World.
Variable newClientForGVK :
  Config -> list metav1.APIResourceList -> string -> string ->
  World -> Client * option error * World.
Variable NewNamespacedMetricsStores :
  Client -> list string -> string -> string -> list ksmetric.FamilyGenerator ->
  World -> list Store * World.
Variable NewClusterScopedMetricsStores :
  Client -> string -> string -> list ksmetric.FamilyGenerator ->
  World -> list Store * World.

(** One entry of the trace per call, with what the call returned. *)
Inductive Event : Type :=
| EvLog (msg : string) (keysAndValues : list string)
| EvGetAPIResourceLists (cfg : Config) (err : option error)
| EvNewClientForGVK (cfg : Config) (apiVersion kind : string) (err : option error)
| EvNewNamespacedMetricsStores (dclient : Client) (ns : list string)
    (apiVersion kind : string) (metricFamilies : list ksmetric.FamilyGenerator)
    (stores : list Store)
| EvNewClusterScopedMetricsStores (dclient : Client)
    (apiVersion kind : string) (metricFamilies : list ksmetric.FamilyGenerator)
    (stores : list Store)
| EvGoServeMetrics (allStores : list (list Store)) (host : string) (port : Z).

(** A computation runs from a world to a result, the world it leaves and
    the events it caused; [inl err] is an early [return err]. *)
Definition M (A : Type) : Type := World -> (error + A) * World * list Event.

Definition ret {A} (a : A) : M A := fun w => (inr a, w, []).

Definition bind {A B} (m : M A) (f : A -> M B) : M B :=
  fun w =>
    match m w with
    | (inl err, w1, t1) => (inl err, w1, t1)
    | (inr a, w1, t1) =>
        match f a w1 with
        | (r, w2, t2) => (r, w2, (t1 ++ t2)%list)
        end
    end.

Definition emit (ev : Event) : M unit := fun w => (inr tt, w, [ev]).

(** [return err] before the end of the function. *)
Definition return_err {A} (err : error) : M A := fun w => (inl err, w, []).

(** [if err != nil { return err }] after a call that returned [(a, err)]. *)
Definition check {A} (r : A * option error) : M A :=
  fun w =>
    match r with
    | (_, Some err) => (inl err, w, [])
    | (a, None) => (inr a, w, [])
    end.

Notation "x <- m ;; k" := (bind m (fun x => k))
  (at level 61, m at next level, right associativity).
Notation "m ;;; k" := (bind m (fun _ => k))
  (at level 61, right associativity).

Definition log_Info (msg : string) (keysAndValues : list string) : M unit :=
  emit (EvLog msg keysAndValues).

Definition call_getAPIResourceLists (cfg : Config)
  : M (list metav1.APIResourceList) :=
  fun w =>
    match getAPIResourceLists cfg w with
    | (lists, err, w1) =>
        (match err with Some e => inl e | None => inr lists end,
         w1, [EvGetAPIResourceLists cfg err])
    end.

Definition call_newClientForGVK (cfg : Config)
  (apiResourceLists : list metav1.APIResourceList) (apiVersion kind : string)
  : M Client :=
  fun w =>
    match newClientForGVK cfg apiResourceLists apiVersion kind w with
    | (dclient, err, w1) =>
        (match err with Some e => inl e | None => inr dclient end,
         w1, [EvNewClientForGVK cfg apiVersion kind err])
    end.

Definition call_NewNamespacedMetricsStores (dclient : Client) (ns : list string)
  (apiVersion kind : string) (metricFamilies : list ksmetric.FamilyGenerator)
  : M (list Store) :=
  fun w =>
    match NewNamespacedMetricsStores dclient ns apiVersion kind metricFamilies w with
    | (stores, w1) =>
        (inr stores, w1,
         [EvNewNamespacedMetricsStores dclient ns apiVersion kind metricFamilies stores])
    end.

Definition call_NewClusterScopedMetricsStores (dclient : Client)
  (apiVersion kind : string) (metricFamilies : list ksmetric.FamilyGenerator)
  : M (list Store) :=
  fun w =>
    match NewClusterScopedMetricsStores dclient apiVersion kind metricFamilies w with
    | (stores, w1) =>
        (inr stores, w1,
         [EvNewClusterScopedMetricsStores dclient apiVersion kind metricFamilies stores])
    end.

(** [go ServeMetrics(allStores, host, port)]: the goroutine is started and
    runs on its own; the trace records that it was started. *)
Definition go_ServeMetrics (allStores : list (list Store)) (host : string) (port : Z)
  : M unit :=
  emit (EvGoServeMetrics allStores host port).

(** The body of the loop over [operatorGVKs], up to the stores of one GVK. *)
Definition gvkStores (cfg : Config) (ns : list string)
  (apiResourceLists : list metav1.APIResourceList)
  (gvk : schema.GroupVersionKind) : M (list Store) :=
  let apiVersion := schema.GroupVersion_String gvk in
  let kind := schema.Kind gvk in
  let metricFamilies := generateMetricFamilies unicodeLower (schema.Kind gvk) in
  log_Info "Generating metric families" ["apiVersion"; apiVersion; "kind"; kind] ;;;
  dclient <- call_newClientForGVK cfg apiResourceLists apiVersion kind ;;
  namespaced <- check (isNamespaced gvk apiResourceLists) ;;
  if (namespaced : bool)
  then call_NewNamespacedMetricsStores dclient ns apiVersion kind metricFamilies
  else call_NewClusterScopedMetricsStores dclient apiVersion kind metricFamilies.

(** The loop: [allStores = append(allStores, gvkStores)] for each GVK. *)
Fixpoint forOperatorGVKs (cfg : Config) (ns : list string)
  (apiResourceLists : list metav1.APIResourceList)
  (operatorGVKs : list schema.GroupVersionKind)
  (allStores : list (list Store)) : M (list (list Store)) :=
  match operatorGVKs with
  | [] => ret allStores
  | gvk :: rest =>
      stores <- gvkStores cfg ns apiResourceLists gvk ;;
      forOperatorGVKs cfg ns apiResourceLists rest (allStores ++ [stores])%list
  end.

Definition GenerateAndServeCRMetrics_body (cfg : Config) (ns : list string)
  (operatorGVKs : list schema.GroupVersionKind) (host : string) (port : Z)
  : M unit :=
  if (List.length ns <? 1)%nat
  then return_err (errors_New
         "namespaces were empty; pass at least one namespace to generate custom resource metrics")
  else
    log_Info "Starting collecting operator types" [] ;;;
    apiResourceLists <- call_getAPIResourceLists cfg ;;
    allStores <- forOperatorGVKs cfg ns apiResourceLists operatorGVKs [] ;;
    log_Info "Starting serving custom resource metrics" [] ;;;
    go_ServeMetrics allStores host port ;;;
    ret tt.

(** [GenerateAndServeCRMetrics]: the returned [error], the world left and
    the trace of the calls made. *)
Definition GenerateAndServeCRMetrics (cfg : Config) (ns : list string)
  (operatorGVKs : list schema.GroupVersionKind) (host : string) (port : Z)
  (w : World) : option error * World * list Event :=
  match GenerateAndServeCRMetrics_body cfg ns operatorGVKs host port w with
  | (inl err, w1, t) => (Some err, w1, t)
  | (inr _, w1, t) => (None, w1, t)
  end.

(** Classifiers of trace entries. *)
Definition isStoreEvent (ev : Event) : bool :=
  match ev with
  | EvNewNamespacedMetricsStores _ _ _ _ _ _ => true
  | EvNewClusterScopedMetricsStores _ _ _ _ _ => true
  | _ => false
  end.

Definition isServeEvent (ev : Event) : bool :=
  match ev with
  | EvGoServeMetrics _ _ _ => true
  | _ => false
  end.

Definition isFetchEvent (ev : Event) : bool :=
  match ev with
  | EvGetAPIResourceLists _ _ => true
  | _ => false
  end.

Definition isClientEvent (ev : Event) : bool :=
  match ev with
  | EvNewClientForGVK _ _ _ _ => true
  | _ => false
  end.

(** The stores a store-building call returned. *)
Definition storesOf (ev : Event) : list Store :=
  match ev with
  | EvNewNamespacedMetricsStores _ _ _ _ _ stores => stores
  | EvNewClusterScopedMetricsStores _ _ _ _ stores => stores
  | _ => []
  end.

Definition countEvents (p : Event -> bool) (t : list Event) : nat :=
  List.length (filter p t).

(** [clientFor cfg gvk ev]: [ev] is the construction of the client for
    [gvk], whatever it returned. *)
Definition clientFor (cfg : Config) (gvk : schema.GroupVersionKind) (ev : Event) : Prop :=
  exists err,
    ev = EvNewClientForGVK cfg (schema.GroupVersion_String gvk) (schema.Kind gvk) err.

(** The trace without the starts of [ServeMetrics]. *)
Definition withoutServe (t : list Event) : list Event :=
  filter (fun ev => negb (isServeEvent ev)) t.

(** The message of the error that [GenerateAndServeCRMetrics] builds. *)
Definition namespacesEmpty : error :=
  errors_New
    "namespaces were empty; pass at least one namespace to generate custom resource metrics".

(** The error a call into the client library returned, if the entry is
    such a call. *)
Definition libraryError (ev : Event) : option error :=
  match ev with
  | EvGetAPIResourceLists _ err => err
  | EvNewClientForGVK _ _ _ err => err
  | _ => None
  end.

(** [builtFor ns lists gvk ev]: [ev] is the store-building call that the
    scope of [gvk] in the catalog [lists] asks for. *)
Definition builtFor (ns : list string) (lists : list metav1.APIResourceList)
  (gvk : schema.GroupVersionKind) (ev : Event) : Prop :=
  let apiVersion := schema.GroupVersion_String gvk in
  let kind := schema.Kind gvk in
  let metricFamilies := generateMetricFamilies unicodeLower kind in
  match isNamespaced gvk lists with
  | (true, None) =>
      exists dclient stores w w1,
        NewNamespacedMetricsStores dclient ns apiVersion kind metricFamilies w = (stores, w1) /\
        ev = EvNewNamespacedMetricsStores dclient ns apiVersion kind metricFamilies stores
  | (false, None) =>
      exists dclient stores w w1,
        NewClusterScopedMetricsStores dclient apiVersion kind metricFamilies w = (stores, w1) /\
        ev = EvNewClusterScopedMetricsStores dclient apiVersion kind metricFamilies stores
  | (_, Some _) => False
  end.

(** Where the setup fails first.  [FirstFailure cfg ns w gvks e k]: from
    world [w] the first call to fail fails with [e], and [k] GVKs were
    handled completely before it. *)
Inductive FirstFailure (cfg : Config) (ns : list string) (w : World)
  : list schema.GroupVersionKind -> error -> nat -> Prop :=
| FailCatalog gvks lists e w1 :
    getAPIResourceLists cfg w = (lists, Some e, w1) ->
    FirstFailure cfg ns w gvks e 0
| FailClient pre gvk post lists w1 allStores w2 t dclient e w3 :
    getAPIResourceLists cfg w = (lists, None, w1) ->
    forOperatorGVKs cfg ns lists pre [] w1 = (inr allStores, w2, t) ->
    newClientForGVK cfg lists (schema.GroupVersion_String gvk) (schema.Kind gvk) w2
      = (dclient, Some e, w3) ->
    FirstFailure cfg ns w (pre ++ gvk :: post) e (List.length pre)
| FailClassify pre gvk post lists w1 allStores w2 t dclient w3 namespaced e :
    getAPIResourceLists cfg w = (lists, None, w1) ->
    forOperatorGVKs cfg ns lists pre [] w1 = (inr allStores, w2, t) ->
    newClientForGVK cfg lists (schema.GroupVersion_String gvk) (schema.Kind gvk) w2
      = (dclient, None, w3) ->
    isNamespaced gvk lists = (namespaced, Some e) ->
    FirstFailure cfg ns w (pre ++ gvk :: post) e (List.length pre).

(* ================================================================= *)
(** ** Properties of the setup *)

(** *** Running one iteration of the loop *)

(** The four ways the body of the loop can end. *)
Lemma gvkStores_run cfg ns lists gvk w :
  gvkStores cfg ns lists gvk w =
  let apiVersion := schema.GroupVersion_String gvk in
  let kind := schema.Kind gvk in
  let metricFamilies := generateMetricFamilies unicodeLower kind in
  let logged := EvLog "Generating metric families" ["apiVersion"; apiVersion; "kind"; kind] in
  match newClientForGVK cfg lists apiVersion kind w with
  | (_, Some e, w1) => (inl e, w1, [logged; EvNewClientForGVK cfg apiVersion kind (Some e)])
  | (dclient, None, w1) =>
      let called := EvNewClientForGVK cfg apiVersion kind None in
      match isNamespaced gvk lists with
      | (_, Some e) => (inl e, w1, [logged; called])
      | (true, None) =>
          match NewNamespacedMetricsStores dclient ns apiVersion kind metricFamilies w1 with
          | (stores, w2) =>
              (inr stores, w2,
               [logged; called;
                EvNewNamespacedMetricsStores dclient ns apiVersion kind metricFamilies stores])
          end
      | (false, None) =>
          match NewClusterScopedMetricsStores dclient apiVersion kind metricFamilies w1 with
          | (stores, w2) =>
              (inr stores, w2,
               [logged; called;
                EvNewClusterScopedMetricsStores dclient apiVersion kind metricFamilies stores])
          end
      end
  end.
Proof.
  unfold gvkStores, bind, log_Info, emit, call_newClientForGVK, check; cbn.
  destruct (newClientForGVK cfg lists _ _ w) as [[dclient [e|]] w1]; cbn; [reflexivity|].
  destruct (isNamespaced gvk lists) as [[|] [e|]]; cbn; try reflexivity.
  - unfold call_NewNamespacedMetricsStores.
    destruct (NewNamespacedMetricsStores _ _ _ _ _ w1); reflexivity.
  - unfold call_NewClusterScopedMetricsStores.
    destruct (NewClusterScopedMetricsStores _ _ _ _ w1); reflexivity.
Qed.

(** An iteration that fails built no store and started no server; its last
    call is the one to the client library. *)
Lemma gvkStores_fails cfg ns lists gvk w e w1 t :
  gvkStores cfg ns lists gvk w = (inl e, w1, t) ->
  filter isStoreEvent t = [] /\ filter isServeEvent t = [] /\
  filter isFetchEvent t = [] /\ List.length (filter isClientEvent t) = 1 /\
  forall ev e', In ev t -> libraryError ev = Some e' -> e' = e.
Proof.
  rewrite gvkStores_run; cbn zeta.
  destruct (newClientForGVK cfg lists _ _ w) as [[dclient [e0|]] w0].
  - intros H; inversion H; subst; cbn. repeat split; trivial.
    intros ev e' [<-|[<-|[]]]; cbn; congruence.
  - destruct (isNamespaced gvk lists) as [[|] [e0|]];
      try destruct (NewNamespacedMetricsStores _ _ _ _ _ w0);
      try destruct (NewClusterScopedMetricsStores _ _ _ _ w0);
      intros H; inversion H; subst; cbn; repeat split; trivial;
      intros ev e' [<-|[<-|[]]]; cbn; congruence.
Qed.

(** An iteration that succeeds made one client, raised no library error
    and built the one store group that the scope of the GVK asks for. *)
Lemma gvkStores_succeeds cfg ns lists gvk w stores w1 t :
  gvkStores cfg ns lists gvk w = (inr stores, w1, t) ->
  (exists ev, filter isStoreEvent t = [ev] /\ builtFor ns lists gvk ev /\
              storesOf ev = stores) /\
  filter isServeEvent t = [] /\ filter isFetchEvent t = [] /\
  List.length (filter isClientEvent t) = 1 /\
  forall ev, In ev t -> libraryError ev = None.
Proof.
  rewrite gvkStores_run; cbn zeta. unfold builtFor.
  destruct (newClientForGVK cfg lists _ _ w) as [[dclient [e0|]] w0]; [discriminate|].
  destruct (isNamespaced gvk lists) as [[|] [e0|]]; try discriminate.
  - destruct (NewNamespacedMetricsStores _ _ _ _ _ w0) as [sts w2] eqn:E.
    intros H; inversion H; subst; cbn. repeat split; trivial.
    + eexists; split; [reflexivity|split; [|reflexivity]].
      do 4 eexists; split; [exact E|reflexivity].
    + intros ev [<-|[<-|[<-|[]]]]; reflexivity.
  - destruct (NewClusterScopedMetricsStores _ _ _ _ w0) as [sts w2] eqn:E.
    intros H; inversion H; subst; cbn. repeat split; trivial.
    + eexists; split; [reflexivity|split; [|reflexivity]].
      do 4 eexists; split; [exact E|reflexivity].
    + intros ev [<-|[<-|[<-|[]]]]; reflexivity.
Qed.

(** *** Running the loop *)

Lemma forOperatorGVKs_cons cfg ns lists gvk rest allStores w :
  forOperatorGVKs cfg ns lists (gvk :: rest) allStores w =
  match gvkStores cfg ns lists gvk w with
  | (inl e, w1, t1) => (inl e, w1, t1)
  | (inr stores, w1, t1) =>
      match forOperatorGVKs cfg ns lists rest (allStores ++ [stores])%list w1 with
      | (r, w2, t2) => (r, w2, (t1 ++ t2)%list)
      end
  end.
Proof. reflexivity. Qed.

Local Ltac run_cons H :=
  rewrite forOperatorGVKs_cons in H;
  let st := fresh "stores" in
  let e0 := fresh "e0" in
  let w1 := fresh "w1" in
  let t1 := fresh "t1" in
  let B := fresh "Hbody" in
  destruct (gvkStores _ _ _ _ _) as [[[e0|st] w1] t1] eqn:B.

(** A loop that ends normally built one store group per GVK, in order,
    and appended them in that order. *)
Lemma forOperatorGVKs_succeeds cfg ns lists gvks :
  forall allStores w allStores' w' t,
  forOperatorGVKs cfg ns lists gvks allStores w = (inr allStores', w', t) ->
  Forall2 (builtFor ns lists) gvks (filter isStoreEvent t) /\
  allStores' = (allStores ++ map storesOf (filter isStoreEvent t))%list /\
  filter isServeEvent t = [] /\ filter isFetchEvent t = [] /\
  List.length (filter isClientEvent t) = List.length gvks /\
  forall ev, In ev t -> libraryError ev = None.
Proof.
  induction gvks as [|gvk rest IH]; intros acc w acc' w' t H.
  - inversion H; subst; cbn. rewrite app_nil_r.
    repeat split; trivial. intros ev [].
  - run_cons H; [discriminate|].
    destruct (forOperatorGVKs cfg ns lists rest _ w1) as [[r w2] t2] eqn:Hrest.
    inversion H; subst; clear H.
    apply gvkStores_succeeds in Hbody.
    destruct Hbody as [[ev [Hev [Hbuilt Hst]]] [Hserve [Hfetch [Hclient Hlib]]]].
    apply IH in Hrest.
    destruct Hrest as [Hall [Hacc [Hserve' [Hfetch' [Hclient' Hlib']]]]].
    rewrite !filter_app, Hev, Hserve, Hserve', Hfetch, Hfetch'.
    repeat split; trivial.
    + cbn. constructor; assumption.
    + rewrite Hacc, <- app_assoc. cbn. rewrite Hst. reflexivity.
    + rewrite length_app, Hclient, Hclient'. reflexivity.
    + intros ev' Hin. apply in_app_or in Hin. destruct Hin; auto.
Qed.

(** Whatever way the loop ends, it starts no server and fetches no
    catalog, and a library error in its trace is the error it returns. *)
Lemma forOperatorGVKs_trace cfg ns lists gvks :
  forall allStores w r w' t,
  forOperatorGVKs cfg ns lists gvks allStores w = (r, w', t) ->
  filter isServeEvent t = [] /\ filter isFetchEvent t = [] /\
  forall ev e, In ev t -> libraryError ev = Some e -> r = inl e.
Proof.
  induction gvks as [|gvk rest IH]; intros acc w r w' t H.
  - inversion H; subst; cbn. repeat split; trivial. intros ev e [].
  - run_cons H.
    + inversion H; subst; clear H.
      apply gvkStores_fails in Hbody.
      destruct Hbody as [_ [Hserve [Hfetch [_ Hlib]]]].
      repeat split; trivial.
      intros ev e Hin He. f_equal. symmetry. eapply Hlib; eassumption.
    + destruct (forOperatorGVKs cfg ns lists rest _ w1) as [[r2 w2] t2] eqn:Hrest.
      inversion H; subst; clear H.
      apply gvkStores_succeeds in Hbody.
      destruct Hbody as [_ [Hserve [Hfetch [_ Hlib]]]].
      apply IH in Hrest. destruct Hrest as [Hserve' [Hfetch' Hlib']].
      rewrite !filter_app, Hserve, Hserve', Hfetch, Hfetch'.
      repeat split; trivial.
      intros ev e Hin He. apply in_app_or in Hin. destruct Hin as [Hin|Hin].
      * rewrite (Hlib _ Hin) in He. discriminate.
      * eapply Hlib'; eassumption.
Qed.

(** The loop stops at the first iteration that fails: the GVKs after it
    leave no mark on the result, the world or the trace. *)
Lemma forOperatorGVKs_stops cfg ns lists pre gvk post :
  forall allStores w allStores' w2 t2 e w3 t3,
  forOperatorGVKs cfg ns lists pre allStores w = (inr allStores', w2, t2) ->
  gvkStores cfg ns lists gvk w2 = (inl e, w3, t3) ->
  forOperatorGVKs cfg ns lists (pre ++ gvk :: post) allStores w
    = (inl e, w3, (t2 ++ t3)%list).
Proof.
  induction pre as [|g pre IH]; intros acc w acc' w2 t2 e w3 t3 Hpre Hbody.
  - inversion Hpre; subst. cbn [app]. rewrite forOperatorGVKs_cons, Hbody. reflexivity.
  - cbn [app]. rewrite forOperatorGVKs_cons.
    run_cons Hpre; [discriminate|].
    destruct (forOperatorGVKs cfg ns lists pre _ w1) as [[r w2'] t2'] eqn:Hrest.
    inversion Hpre; subst; clear Hpre.
    rewrite (IH _ _ _ _ _ _ _ _ Hrest Hbody), app_assoc. reflexivity.
Qed.

(** *** Running the whole function *)

Lemma GenerateAndServeCRMetrics_nil cfg gvks host port w :
  GenerateAndServeCRMetrics cfg [] gvks host port w =
  (Some (errors_New
     "namespaces were empty; pass at least one namespace to generate custom resource metrics"),
   w, []).
Proof. reflexivity. Qed.

Lemma GenerateAndServeCRMetrics_run cfg ns gvks host port w :
  ns <> [] ->
  GenerateAndServeCRMetrics cfg ns gvks host port w =
  let started := EvLog "Starting collecting operator types" [] in
  match getAPIResourceLists cfg w with
  | (_, Some e, w1) => (Some e, w1, [started; EvGetAPIResourceLists cfg (Some e)])
  | (lists, None, w1) =>
      let fetched := EvGetAPIResourceLists cfg None in
      match forOperatorGVKs cfg ns lists gvks [] w1 with
      | (inl e, w2, t) => (Some e, w2, ([started; fetched] ++ t)%list)
      | (inr allStores, w2, t) =>
          (None, w2,
           ([started; fetched] ++ t ++
            [EvLog "Starting serving custom resource metrics" [];
             EvGoServeMetrics allStores host port])%list)
      end
  end.
Proof.
  intros Hns. destruct ns as [|n ns']; [congruence|].
  unfold GenerateAndServeCRMetrics, GenerateAndServeCRMetrics_body.
  cbn [List.length Nat.ltb Nat.leb].
  unfold bind, log_Info, go_ServeMetrics, emit, ret, call_getAPIResourceLists.
  destruct (getAPIResourceLists cfg w) as [[lists [e|]] w1]; cbn; [reflexivity|].
  destruct (forOperatorGVKs cfg (n :: ns') lists gvks [] w1) as [[[e|all] w2] t];
    cbn; reflexivity.
Qed.

(** The run stops with the loop: what it returns and what it did when an
    iteration fails after the iterations for [pre] went through. *)
Lemma GenerateAndServeCRMetrics_stops_counts
  cfg ns pre gvk post host port w lists w1 allStores w2 t e w3 t3 :
  ns <> [] ->
  getAPIResourceLists cfg w = (lists, None, w1) ->
  forOperatorGVKs cfg ns lists pre [] w1 = (inr allStores, w2, t) ->
  gvkStores cfg ns lists gvk w2 = (inl e, w3, t3) ->
  exists w' t',
    GenerateAndServeCRMetrics cfg ns (pre ++ gvk :: post) host port w
      = (Some e, w', t') /\
    List.length (filter isStoreEvent t') = List.length pre /\
    List.length (filter isServeEvent t') = 0 /\
    List.length (filter isFetchEvent t') = 1 /\
    List.length (filter isClientEvent t') <= S (List.length pre).
Proof.
  intros Hns Hfetch Hpre Hbody.
  rewrite (GenerateAndServeCRMetrics_run cfg (pre ++ gvk :: post) host port w Hns).
  cbn zeta.
  rewrite Hfetch, (forOperatorGVKs_stops _ _ _ _ _ post _ _ Hpre Hbody).
  do 2 eexists; split; [reflexivity|].
  apply forOperatorGVKs_succeeds in Hpre.
  destruct Hpre as [Hall [_ [Hserve [Hf [Hclient _]]]]].
  apply gvkStores_fails in Hbody.
  destruct Hbody as [Hstore3 [Hserve3 [Hf3 [Hclient3 _]]]].
  cbn [app filter isStoreEvent isServeEvent isFetchEvent isClientEvent].
  rewrite !filter_app, Hstore3, Hserve, Hserve3, Hf, Hf3, !app_nil_r.
  rewrite length_app, Hclient, Hclient3.
  apply Forall2_length in Hall. cbn. repeat split; auto; lia.
Qed.

(** *** What [GenerateAndServeCRMetrics] guarantees *)

(** C2. With a namespace list of length below one, which a nil and an
    empty slice both are, [GenerateAndServeCRMetrics] returns its own error
    at once, whatever the configuration, GVK list, host and port: the trace
    is empty and the world untouched, so no catalog was fetched, no store
    built and no server started. *)
Theorem GenerateAndServeCRMetrics_empty_namespaces cfg ns gvks host port w :
  List.length ns < 1 ->
  GenerateAndServeCRMetrics cfg ns gvks host port w =
  (Some (errors_New
     "namespaces were empty; pass at least one namespace to generate custom resource metrics"),
   w, []).
Proof.
  intros Hlen. destruct ns as [|n ns'].
  - apply GenerateAndServeCRMetrics_nil.
  - cbn in Hlen. lia.
Qed.

(** C5. If the catalog fetch fails, or the client construction or the
    classification of some GVK fails after every earlier GVK went through,
    then [GenerateAndServeCRMetrics] returns the error of that first
    failure.  Stores were built for the [k] GVKs before the failing one
    only, none for it or for a later GVK; no server was started; the
    catalog was fetched once and a client was asked for at most once per
    GVK reached. *)
Theorem GenerateAndServeCRMetrics_first_failure_aborts
  cfg ns gvks host port w e k :
  ns <> [] ->
  FirstFailure cfg ns w gvks e k ->
  exists w' t,
    GenerateAndServeCRMetrics cfg ns gvks host port w = (Some e, w', t) /\
    countEvents isStoreEvent t = k /\
    countEvents isServeEvent t = 0 /\
    countEvents isFetchEvent t = 1 /\
    countEvents isClientEvent t <= S k.
Proof.
  intros Hns Hfail. unfold countEvents.
  destruct Hfail as
    [ gvks lists e w1 Hfetch
    | pre gvk post lists w1 allStores w2 t dclient e w3 Hfetch Hpre Hclient
    | pre gvk post lists w1 allStores w2 t dclient w3 namespaced e
        Hfetch Hpre Hclient Hscope ].
  - rewrite (GenerateAndServeCRMetrics_run cfg gvks host port w Hns); cbn zeta.
    rewrite Hfetch. do 2 eexists; split; [reflexivity|]. cbn. repeat split; auto.
  - eapply GenerateAndServeCRMetrics_stops_counts; try eassumption.
    rewrite gvkStores_run; cbn zeta. rewrite Hclient. reflexivity.
  - eapply GenerateAndServeCRMetrics_stops_counts; try eassumption.
    rewrite gvkStores_run; cbn zeta. rewrite Hclient, Hscope.
    destruct namespaced; reflexivity.
Qed.


(** C7. In a run that goes through, the store-building calls are, one per
    GVK and in the order of the input list, a call of
    [NewNamespacedMetricsStores] over the given namespaces where the catalog
    classifies the GVK as namespaced and a call of
    [NewClusterScopedMetricsStores] otherwise; [allStores], as handed to
    [ServeMetrics], is the list of their results in that order. *)
Theorem GenerateAndServeCRMetrics_stores_by_scope
  cfg ns gvks host port w w' t :
  GenerateAndServeCRMetrics cfg ns gvks host port w = (None, w', t) ->
  let lists := fst (fst (getAPIResourceLists cfg w)) in
  Forall2 (builtFor ns lists) gvks (filter isStoreEvent t) /\
  In (EvGoServeMetrics (map storesOf (filter isStoreEvent t)) host port) t.
Proof.
  destruct ns as [|n ns'].
  - rewrite GenerateAndServeCRMetrics_nil. discriminate.
  - rewrite GenerateAndServeCRMetrics_run by discriminate; cbn zeta.
    destruct (getAPIResourceLists cfg w) as [[lists [e0|]] w1]; [discriminate|].
    destruct (forOperatorGVKs cfg (n :: ns') lists gvks [] w1)
      as [[[e0|all] w2] t2] eqn:Hloop; [discriminate|].
    intros H; inversion H; subst; clear H. cbn [fst].
    apply forOperatorGVKs_succeeds in Hloop.
    destruct Hloop as [Hall [Hacc _]].
    cbn [app filter isStoreEvent]. rewrite filter_app. cbn. rewrite app_nil_r.
    split; [exact Hall|].
    right; right. apply in_or_app. right. right. left. rewrite Hacc. reflexivity.
Qed.

(** C8. A run that returns nil started [ServeMetrics] on the given host
    and port exactly once, as its last action: every store-building call,
    one per GVK of the input list, comes before it in the trace, and the
    goroutine receives one store group per GVK.  A run that returns an
    error started none. *)
Theorem GenerateAndServeCRMetrics_serves_once_after_stores
  cfg ns gvks host port w r w' t :
  GenerateAndServeCRMetrics cfg ns gvks host port w = (r, w', t) ->
  (r = None ->
   exists t0 allStores,
     t = (t0 ++ [EvLog "Starting serving custom resource metrics" [];
                 EvGoServeMetrics allStores host port])%list /\
     countEvents isServeEvent t0 = 0 /\
     countEvents isStoreEvent t0 = List.length gvks /\
     List.length allStores = List.length gvks /\
     countEvents isServeEvent t = 1) /\
  (r <> None -> countEvents isServeEvent t = 0).
Proof.
  unfold countEvents. destruct ns as [|n ns'].
  - rewrite GenerateAndServeCRMetrics_nil.
    intros H; inversion H; subst. split; [discriminate|reflexivity].
  - rewrite GenerateAndServeCRMetrics_run by discriminate; cbn zeta.
    destruct (getAPIResourceLists cfg w) as [[lists [e0|]] w1].
    + intros H; inversion H; subst. split; [discriminate|reflexivity].
    + destruct (forOperatorGVKs cfg (n :: ns') lists gvks [] w1)
        as [[[e0|all] w2] t2] eqn:Hloop; intros H; inversion H; subst; clear H.
      * apply forOperatorGVKs_trace in Hloop. destruct Hloop as [Hserve _].
        split; [discriminate|]. intros _. cbn. rewrite Hserve. reflexivity.
      * apply forOperatorGVKs_succeeds in Hloop.
        destruct Hloop as [Hall [Hacc [Hserve _]]].
        apply Forall2_length in Hall.
        split; [intros _|congruence].
        exists ([EvLog "Starting collecting operator types" [];
                 EvGetAPIResourceLists cfg None] ++ t2)%list, all.
        rewrite <- app_assoc. split; [reflexivity|].
        cbn [app filter isStoreEvent isServeEvent].
        rewrite !filter_app, Hserve. cbn.
        rewrite Hacc. cbn. rewrite length_map. repeat split; auto.
Qed.

(** *** Further properties of the runs *)

(** When [isNamespaced] returns an error, the flag is [false] and the error
    is the one naming the type. *)
Lemma isNamespaced_error gvk lists namespaced e :
  isNamespaced gvk lists = (namespaced, Some e) ->
  namespaced = false /\ e = unableToFind gvk.
Proof.
  induction lists as [|rl rest IH]; cbn [isNamespaced].
  - intros H; inversion H; subst. split; reflexivity.
  - destruct (String.eqb _ _); [|exact IH].
    destruct (isNamespaced_resources _ _); [discriminate|exact IH].
Qed.

Lemma gvkStores_error_origin cfg ns lists gvk w e w1 t :
  gvkStores cfg ns lists gvk w = (inl e, w1, t) ->
  (exists ev, In ev t /\ libraryError ev = Some e) \/ e = unableToFind gvk.
Proof.
  rewrite gvkStores_run; cbn zeta.
  destruct (newClientForGVK cfg lists _ _ w) as [[dclient [e0|]] w0].
  - intros H; inversion H; subst. left. eexists. split; [right; left; reflexivity|].
    reflexivity.
  - destruct (isNamespaced gvk lists) as [b [e0|]] eqn:Hscope.
    + apply isNamespaced_error in Hscope. destruct Hscope as [_ ->].
      destruct b; intros H; inversion H; subst; right; reflexivity.
    + destruct b;
        [destruct (NewNamespacedMetricsStores _ _ _ _ _ w0)
        |destruct (NewClusterScopedMetricsStores _ _ _ _ w0)];
        discriminate.
Qed.

Lemma forOperatorGVKs_error_origin cfg ns lists gvks :
  forall allStores w e w' t,
  forOperatorGVKs cfg ns lists gvks allStores w = (inl e, w', t) ->
  (exists ev, In ev t /\ libraryError ev = Some e) \/
  (exists gvk, In gvk gvks /\ e = unableToFind gvk).
Proof.
  induction gvks as [|gvk rest IH]; intros acc w e w' t H; [discriminate|].
  run_cons H.
  - inversion H; subst; clear H.
    apply gvkStores_error_origin in Hbody. destruct Hbody as [Hlib| ->].
    + left. exact Hlib.
    + right. exists gvk. split; [left; reflexivity|reflexivity].
  - destruct (forOperatorGVKs cfg ns lists rest _ w1) as [[r w2] t2] eqn:Hrest.
    inversion H; subst; clear H.
    apply IH in Hrest. destruct Hrest as [[ev [Hin He]]|[g [Hin He]]].
    + left. exists ev. split; [apply in_or_app; right; exact Hin|exact He].
    + right. exists g. split; [right; exact Hin|exact He].
Qed.

(** X1. Where a returned error comes from: it is the function's own error
    for an empty namespace list, or an error that a call into the client
    library returned during the run, or the error of [isNamespaced] for a
    GVK of the input list.  No other error is ever returned. *)
Theorem GenerateAndServeCRMetrics_error_origin cfg ns gvks host port w e w' t :
  GenerateAndServeCRMetrics cfg ns gvks host port w = (Some e, w', t) ->
  (ns = [] /\ e = namespacesEmpty) \/
  (exists ev, In ev t /\ libraryError ev = Some e) \/
  (exists gvk, In gvk gvks /\ e = unableToFind gvk).
Proof.
  destruct ns as [|n ns'].
  - rewrite GenerateAndServeCRMetrics_nil. intros H; inversion H; subst.
    left. split; reflexivity.
  - rewrite GenerateAndServeCRMetrics_run by discriminate; cbn zeta.
    destruct (getAPIResourceLists cfg w) as [[lists [e0|]] w1].
    + intros H; inversion H; subst. right; left.
      eexists. split; [right; left; reflexivity|reflexivity].
    + destruct (forOperatorGVKs cfg (n :: ns') lists gvks [] w1)
        as [[[e0|all] w2] t2] eqn:Hloop; [|discriminate].
      intros H; inversion H; subst; clear H. right.
      apply forOperatorGVKs_error_origin in Hloop.
      destruct Hloop as [[ev [Hin He]]|Hgvk]; [left|right; exact Hgvk].
      exists ev. split; [right; right; exact Hin|exact He].
Qed.

Lemma forOperatorGVKs_counts cfg ns lists gvks :
  forall allStores w r w' t,
  forOperatorGVKs cfg ns lists gvks allStores w = (r, w', t) ->
  countEvents isStoreEvent t <= countEvents isClientEvent t /\
  countEvents isClientEvent t <= S (countEvents isStoreEvent t) /\
  countEvents isClientEvent t <= List.length gvks.
Proof.
  unfold countEvents.
  induction gvks as [|gvk rest IH]; intros acc w r w' t H.
  - inversion H; subst; cbn. lia.
  - run_cons H.
    + inversion H; subst; clear H.
      apply gvkStores_fails in Hbody.
      destruct Hbody as [Hstore [_ [_ [Hclient _]]]].
      rewrite Hstore, Hclient. cbn. lia.
    + destruct (forOperatorGVKs cfg ns lists rest _ w1) as [[r2 w2] t2] eqn:Hrest.
      inversion H; subst; clear H.
      apply gvkStores_succeeds in Hbody.
      destruct Hbody as [[ev [Hev _]] [_ [_ [Hclient _]]]].
      apply IH in Hrest.
      rewrite !filter_app, !length_app, Hev, Hclient. cbn. lia.
Qed.

Lemma GenerateAndServeCRMetrics_call_counts_helper cfg ns gvks host port w r w' t :
  ns <> [] ->
  GenerateAndServeCRMetrics cfg ns gvks host port w = (r, w', t) ->
  countEvents isFetchEvent (snd (r, w', t)) = 1.
Proof.
  intros Hns. rewrite GenerateAndServeCRMetrics_run by exact Hns; cbn zeta.
  destruct (getAPIResourceLists cfg w) as [[lists [e0|]] w1].
  - intros H; inversion H; subst. reflexivity.
  - destruct (forOperatorGVKs cfg ns lists gvks [] w1) as [[r2 w2] t2] eqn:Hloop.
    apply forOperatorGVKs_trace in Hloop. destruct Hloop as [_ [Hfetch _]].
    unfold countEvents.
    destruct r2 as [e0|all]; intros H; inversion H; subst; clear H;
      cbn [snd app filter isFetchEvent]; rewrite ?filter_app, Hfetch; reflexivity.
Qed.

Lemma gvkStores_client cfg ns lists gvk w r w1 t :
  gvkStores cfg ns lists gvk w = (r, w1, t) ->
  exists ev, filter isClientEvent t = [ev] /\ clientFor cfg gvk ev.
Proof.
  rewrite gvkStores_run; cbn zeta. unfold clientFor.
  destruct (newClientForGVK cfg lists _ _ w) as [[dclient [e0|]] w0].
  - intros H; inversion H; subst. eexists. split; [reflexivity|].
    eexists; reflexivity.
  - destruct (isNamespaced gvk lists) as [[|] [e0|]];
      try destruct (NewNamespacedMetricsStores _ _ _ _ _ w0);
      try destruct (NewClusterScopedMetricsStores _ _ _ _ w0);
      intros H; inversion H; subst; (eexists; split; [reflexivity|]);
      eexists; reflexivity.
Qed.

(** The clients of the loop are made for the GVKs it reached, one each and
    in their order. *)
Lemma forOperatorGVKs_clients cfg ns lists gvks :
  forall allStores w r w' t,
  forOperatorGVKs cfg ns lists gvks allStores w = (r, w', t) ->
  exists reached,
    reached <= List.length gvks /\
    Forall2 (clientFor cfg) (firstn reached gvks) (filter isClientEvent t).
Proof.
  induction gvks as [|gvk rest IH]; intros acc w r w' t H.
  - inversion H; subst. exists 0. cbn. split; [lia|constructor].
  - run_cons H.
    + inversion H; subst; clear H.
      apply gvkStores_client in Hbody. destruct Hbody as [ev [Hev Hfor]].
      exists 1. cbn [List.length firstn]. rewrite Hev.
      split; [lia|]. constructor; [exact Hfor|constructor].
    + destruct (forOperatorGVKs cfg ns lists rest _ w1) as [[r2 w2] t2] eqn:Hrest.
      inversion H; subst; clear H.
      apply gvkStores_client in Hbody. destruct Hbody as [ev [Hev Hfor]].
      apply IH in Hrest. destruct Hrest as [reached [Hle Hall]].
      exists (S reached). cbn [List.length firstn]. rewrite filter_app, Hev.
      split; [lia|]. cbn [app]. constructor; assumption.
Qed.

(** X2. The calls of a run.  With a non-empty namespace list the catalog
    is fetched exactly once, however the run ends.  The client
    constructions are, in the order of the trace, those for the GVKs of a
    prefix of the input list, one for each position of that prefix: none is
    made twice for one entry of the list, none for a GVK that is not in the
    list, none out of order.  The store-building calls never outnumber the
    client constructions and are at most one fewer; at most one server is
    started. *)
Theorem GenerateAndServeCRMetrics_call_counts cfg ns gvks host port w r w' t :
  ns <> [] ->
  GenerateAndServeCRMetrics cfg ns gvks host port w = (r, w', t) ->
  countEvents isFetchEvent t = 1 /\
  (exists reached,
     reached <= List.length gvks /\
     Forall2 (clientFor cfg) (firstn reached gvks) (filter isClientEvent t)) /\
  countEvents isClientEvent t <= List.length gvks /\
  countEvents isStoreEvent t <= countEvents isClientEvent t /\
  countEvents isClientEvent t <= S (countEvents isStoreEvent t) /\
  countEvents isServeEvent t <= 1.
Proof.
  intros Hns. rewrite GenerateAndServeCRMetrics_run by exact Hns; cbn zeta.
  destruct (getAPIResourceLists cfg w) as [[lists [e0|]] w1].
  - intros H; inversion H; subst. cbn.
    split; [reflexivity|]. split; [|lia].
    exists 0. cbn. split; [lia|constructor].
  - destruct (forOperatorGVKs cfg ns lists gvks [] w1) as [[r2 w2] t2] eqn:Hloop.
    pose proof (forOperatorGVKs_counts _ _ _ _ _ _ Hloop) as Hcount.
    pose proof (forOperatorGVKs_clients _ _ _ _ _ _ Hloop) as Hclients.
    apply forOperatorGVKs_trace in Hloop. destruct Hloop as [Hserve [Hfetch _]].
    unfold countEvents in *.
    destruct r2 as [e0|all]; intros H; inversion H; subst; clear H;
      cbn [app filter isStoreEvent isServeEvent isFetchEvent isClientEvent];
      rewrite ?filter_app, ?Hserve, ?Hfetch; cbn; rewrite ?app_nil_r;
      (split; [reflexivity|]); (split; [exact Hclients|lia]).
Qed.

(** X3. An empty GVK list is no error: with a non-empty namespace list
    the catalog is still fetched, and when that succeeds the server is
    started with no store at all and nil is returned. *)
Theorem GenerateAndServeCRMetrics_no_gvks cfg ns host port w lists w1 :
  ns <> [] ->
  getAPIResourceLists cfg w = (lists, None, w1) ->
  GenerateAndServeCRMetrics cfg ns [] host port w =
  (None, w1,
   [EvLog "Starting collecting operator types" [];
    EvGetAPIResourceLists cfg None;
    EvLog "Starting serving custom resource metrics" [];
    EvGoServeMetrics [] host port]).
Proof.
  intros Hns Hfetch.
  rewrite GenerateAndServeCRMetrics_run by exact Hns; cbn zeta.
  rewrite Hfetch. reflexivity.
Qed.

Lemma gvkStores_cluster_scoped cfg ns1 ns2 lists gvk w :
  isNamespaced gvk lists <> (true, None) ->
  gvkStores cfg ns1 lists gvk w = gvkStores cfg ns2 lists gvk w.
Proof.
  intros Hscope. rewrite !gvkStores_run; cbn zeta.
  destruct (newClientForGVK cfg lists _ _ w) as [[dclient [e0|]] w0]; [reflexivity|].
  destruct (isNamespaced gvk lists) as [[|] [e0|]]; try reflexivity.
  congruence.
Qed.

Lemma forOperatorGVKs_cluster_scoped cfg ns1 ns2 lists gvks :
  (forall gvk, In gvk gvks -> isNamespaced gvk lists <> (true, None)) ->
  forall allStores w,
  forOperatorGVKs cfg ns1 lists gvks allStores w
  = forOperatorGVKs cfg ns2 lists gvks allStores w.
Proof.
  induction gvks as [|gvk rest IH]; intros Hscope acc w; [reflexivity|].
  rewrite !forOperatorGVKs_cons.
  rewrite (@gvkStores_cluster_scoped cfg ns1 ns2 lists gvk w (Hscope gvk (or_introl eq_refl))).
  destruct (gvkStores cfg ns2 lists gvk w) as [[[e0|stores] w1] t1]; [reflexivity|].
  rewrite IH; [reflexivity|]. intros g Hin. apply Hscope. right. exact Hin.
Qed.

(** X4. The namespace list matters for namespaced kinds only: when the
    fetched catalog classifies no GVK of the list as namespaced, any two
    non-empty namespace lists give the same returned error, the same world
    and the same trace. *)
Theorem GenerateAndServeCRMetrics_namespaces_unused
  cfg ns1 ns2 gvks host port w :
  ns1 <> [] -> ns2 <> [] ->
  (forall gvk, In gvk gvks ->
     isNamespaced gvk (fst (fst (getAPIResourceLists cfg w))) <> (true, None)) ->
  GenerateAndServeCRMetrics cfg ns1 gvks host port w
  = GenerateAndServeCRMetrics cfg ns2 gvks host port w.
Proof.
  intros H1 H2 Hscope.
  rewrite !GenerateAndServeCRMetrics_run by assumption; cbn zeta.
  destruct (getAPIResourceLists cfg w) as [[lists [e0|]] w1]; [reflexivity|].
  cbn [fst] in Hscope.
  rewrite (@forOperatorGVKs_cluster_scoped cfg ns1 ns2 lists gvks Hscope). reflexivity.
Qed.

(** X5. Host and port are used for nothing but the start of the server:
    two runs that differ in them only return the same error and leave the
    same world, and their traces are the same but for the start of
    [ServeMetrics]. *)
Theorem GenerateAndServeCRMetrics_host_port_unused
  cfg ns gvks host1 port1 host2 port2 w :
  fst (GenerateAndServeCRMetrics cfg ns gvks host1 port1 w)
  = fst (GenerateAndServeCRMetrics cfg ns gvks host2 port2 w) /\
  withoutServe (snd (GenerateAndServeCRMetrics cfg ns gvks host1 port1 w))
  = withoutServe (snd (GenerateAndServeCRMetrics cfg ns gvks host2 port2 w)).
Proof.
  destruct ns as [|n ns'].
  - rewrite !GenerateAndServeCRMetrics_nil. split; reflexivity.
  - rewrite !GenerateAndServeCRMetrics_run by discriminate; cbn zeta.
    destruct (getAPIResourceLists cfg w) as [[lists [e0|]] w1]; [split; reflexivity|].
    destruct (forOperatorGVKs cfg (n :: ns') lists gvks [] w1) as [[[e0|all] w2] t2];
      [split; reflexivity|].
    split; [reflexivity|]. cbn [snd]. unfold withoutServe.
    rewrite !filter_app. reflexivity.
Qed.

Lemma forOperatorGVKs_failed_prefix cfg ns lists pre post :
  forall allStores w e w' t,
  forOperatorGVKs cfg ns lists pre allStores w = (inl e, w', t) ->
  forOperatorGVKs cfg ns lists (pre ++ post) allStores w = (inl e, w', t).
Proof.
  induction pre as [|gvk pre IH]; intros acc w e w' t H; [discriminate|].
  cbn [app]. rewrite forOperatorGVKs_cons. run_cons H.
  - exact H.
  - destruct (forOperatorGVKs cfg ns lists pre _ w1) as [[r w2] t2] eqn:Hrest.
    inversion H; subst; clear H.
    rewrite (IH _ _ _ _ _ Hrest). reflexivity.
Qed.

(** X6. GVKs after a failure change nothing: if the run on a GVK list
    returns an error, the run on that list followed by any further GVKs
    returns the same error, leaves the same world and has the same
    trace. *)
Theorem GenerateAndServeCRMetrics_failed_prefix
  cfg ns pre post host port w e w' t :
  GenerateAndServeCRMetrics cfg ns pre host port w = (Some e, w', t) ->
  GenerateAndServeCRMetrics cfg ns (pre ++ post) host port w = (Some e, w', t).
Proof.
  destruct ns as [|n ns'].
  - rewrite !GenerateAndServeCRMetrics_nil. trivial.
  - rewrite !GenerateAndServeCRMetrics_run by discriminate; cbn zeta.
    destruct (getAPIResourceLists cfg w) as [[lists [e0|]] w1]; [trivial|].
    destruct (forOperatorGVKs cfg (n :: ns') lists pre [] w1)
      as [[[e0|all] w2] t2] eqn:Hloop; [|discriminate].
    rewrite (@forOperatorGVKs_failed_prefix cfg (n :: ns') lists pre post _ _ _ _ _ Hloop). trivial.
Qed.

(** X7. The two exported functions together: the namespace list that
    [GetNamespacesForMetrics] returns without an error always passes the
    namespace check of [GenerateAndServeCRMetrics], whose run then goes on
    to fetch the catalog; the list it returns with an error is the one that
    [GenerateAndServeCRMetrics] refuses. *)
Theorem GetNamespacesForMetrics_then_GenerateAndServeCRMetrics
  (Env : Type) (GetWatchNamespace : Env -> string * option error)
  operatorNs env ns err cfg gvks host port w :
  GetNamespacesForMetrics GetWatchNamespace operatorNs env = (ns, err) ->
  (err = None ->
   countEvents isFetchEvent
     (snd (GenerateAndServeCRMetrics cfg ns gvks host port w)) = 1) /\
  (err <> None ->
   GenerateAndServeCRMetrics cfg ns gvks host port w = (Some namespacesEmpty, w, [])).
Proof.
  unfold GetNamespacesForMetrics.
  destruct (GetWatchNamespace env) as [watchNamespace [e|]].
  - intros H; inversion H; subst. split; [discriminate|].
    intros _. apply GenerateAndServeCRMetrics_nil.
  - intros H; inversion H; subst; clear H. split; [intros _|congruence].
    assert (Hns : (if strings.Contains watchNamespace ","
                   then strings.Split watchNamespace "," else [operatorNs]) <> []).
    { destruct (strings.Contains watchNamespace ","); [|discriminate].
      unfold strings.Split.
      destruct watchNamespace as [|c s']; [discriminate|].
      cbn [strings.genSplit].
      destruct (prefix "," (String c s')); [discriminate|].
      destruct (strings.genSplit "," 0 s'); discriminate. }
    destruct (GenerateAndServeCRMetrics cfg _ gvks host port w) as [[r w'] t] eqn:Hrun.
    exact (@GenerateAndServeCRMetrics_call_counts_helper _ _ _ _ _ _ _ _ _ Hns Hrun).
Qed.

End Setup.

(* ================================================================= *)
(** ** Properties of the string functions *)

Lemma prefix_comma c s :
  prefix "," (String c s) = Ascii.eqb "," c.
Proof.
  change (prefix "," (String c s))
    with (if ascii_dec "," c then prefix "" s else false).
  destruct (ascii_dec "," c) as [Heq|Hne].
  - rewrite <- Heq, Ascii.eqb_refl. destruct s; reflexivity.
  - symmetry. apply Ascii.eqb_neq. exact Hne.
Qed.

(** Splitting on the comma, byte by byte. *)
Lemma Split_comma_cons c s :
  strings.Split (String c s) "," =
  if Ascii.eqb "," c
  then EmptyString :: strings.Split s ","
  else match strings.Split s "," with
       | field :: fields => String c field :: fields
       | [] => [String c EmptyString]
       end.
Proof.
  unfold strings.Split. cbn [strings.genSplit].
  rewrite prefix_comma. reflexivity.
Qed.

Lemma Split_comma_nonempty s : strings.Split s "," <> [].
Proof.
  induction s as [|c s IH]; [discriminate|].
  rewrite Split_comma_cons.
  destruct (Ascii.eqb "," c); [discriminate|].
  destruct (strings.Split s ","); discriminate.
Qed.

Lemma Join_cons e rest sep :
  rest <> [] -> strings.Join (e :: rest) sep = e ++ sep ++ strings.Join rest sep.
Proof. destruct rest; [congruence|reflexivity]. Qed.

(** [Split] cuts only at separators: joining the fields gives the string
    back. *)
Lemma Split_comma_Join s : strings.Join (strings.Split s ",") "," = s.
Proof.
  induction s as [|c s IH]; [reflexivity|].
  rewrite Split_comma_cons.
  destruct (Ascii.eqb "," c) eqn:Hc.
  - apply Ascii.eqb_eq in Hc. subst c.
    rewrite Join_cons by apply Split_comma_nonempty.
    rewrite IH. reflexivity.
  - pose proof (Split_comma_nonempty s) as Hne.
    destruct (strings.Split s ",") as [|field fields]; [congruence|].
    destruct fields as [|f fs]; cbn in *; rewrite IH; reflexivity.
Qed.

Lemma Contains_comma_cons c s :
  strings.Contains (String c s) "," = Ascii.eqb "," c || strings.Contains s ",".
Proof. cbn [strings.Contains]. rewrite prefix_comma. reflexivity. Qed.

(** [Split] cuts at every separator: no field holds a comma. *)
Lemma Split_comma_fields s :
  Forall (fun field => strings.Contains field "," = false) (strings.Split s ",").
Proof.
  induction s as [|c s IH]; [repeat constructor|].
  rewrite Split_comma_cons.
  destruct (Ascii.eqb "," c) eqn:Hc.
  - constructor; [reflexivity|exact IH].
  - destruct (strings.Split s ",") as [|field fields].
    + constructor; [|constructor]. rewrite Contains_comma_cons, Hc. reflexivity.
    + inversion IH; subst. constructor; [|assumption].
      rewrite Contains_comma_cons, Hc. assumption.
Qed.

(** A string with a comma splits into two fields at least. *)
Lemma Split_comma_two s :
  strings.Contains s "," = true -> 2 <= List.length (strings.Split s ",").
Proof.
  induction s as [|c s IH]; [discriminate|].
  rewrite Contains_comma_cons, Split_comma_cons.
  pose proof (Split_comma_nonempty s) as Hne.
  destruct (Ascii.eqb "," c); cbn [orb].
  - intros _. destruct (strings.Split s ","); [congruence|cbn; lia].
  - intros H. specialize (IH H).
    destruct (strings.Split s ","); [congruence|exact IH].
Qed.

(** On an ASCII-only string [ToLower] is the byte loop, whatever the
    Unicode mapping. *)
Lemma ToLower_ASCII unicodeLower s :
  strings.isASCII s = true ->
  strings.ToLower unicodeLower s = strings.mapBytes strings.lowerByte s.
Proof. unfold strings.ToLower. intros ->. reflexivity. Qed.

Example ToLower_Memcached unicodeLower :
  strings.ToLower unicodeLower "Memcached" = "memcached".
Proof. reflexivity. Qed.

Example Split_three : strings.Split "a,,bc" "," = ["a"; ""; "bc"].
Proof. reflexivity. Qed.

(* ================================================================= *)
(** ** Properties of [generateMetricFamilies] *)

(** C1, as the code has it.  For every kind, [generateMetricFamilies]
    returns one gauge family whose name is the lowercased kind followed by
    ["_info"]; for every resource instance its generator gives one metric of
    value 1 whose label keys are ["namespace"] and the lowercased kind (not
    ["name"]) and whose label values are the namespace and the name of the
    instance. *)
Theorem generateMetricFamilies_info_metric unicodeLower kind :
  exists generator,
    generateMetricFamilies unicodeLower kind = [generator] /\
    ksmetric.Name generator = strings.ToLower unicodeLower kind ++ "_info" /\
    ksmetric.Type_ generator = ksmetric.Gauge /\
    forall crd,
      ksmetric.GenerateFunc generator (ObjUnstructured crd) =
      Some {| ksmetric.Metrics :=
        [ {| ksmetric.LabelKeys := ["namespace"; strings.ToLower unicodeLower kind];
             ksmetric.LabelValues :=
               [unstructured.GetNamespace crd; unstructured.GetName crd];
             ksmetric.Value := 1 |} ] |}.
Proof.
  eexists. split; [reflexivity|]. cbn. repeat split.
Qed.

(** The second label key follows the kind, so it is ["name"] only for a
    kind that lowercases to it. *)
Lemma generateMetricFamilies_label_keys unicodeLower kind generator crd family metric :
  In generator (generateMetricFamilies unicodeLower kind) ->
  ksmetric.GenerateFunc generator (ObjUnstructured crd) = Some family ->
  In metric (ksmetric.Metrics family) ->
  ksmetric.LabelKeys metric = ["namespace"; "name"] ->
  strings.ToLower unicodeLower kind = "name".
Proof.
  intros [<-|[]]. cbn. intros H; inversion H; subst; clear H. cbn.
  intros [<-|[]]. cbn. congruence.
Qed.

(* ================================================================= *)
(** ** Properties of [isNamespaced] *)

Lemma isNamespaced_resources_Some kind apiResources namespaced :
  isNamespaced_resources kind apiResources = Some namespaced ->
  exists apiResource,
    In apiResource apiResources /\ metav1.Kind apiResource = kind /\
    metav1.Namespaced apiResource = namespaced.
Proof.
  induction apiResources as [|r rest IH]; cbn; [discriminate|].
  destruct (String.eqb (metav1.Kind r) kind) eqn:Hk.
  - intros H; inversion H; subst. exists r.
    apply String.eqb_eq in Hk. auto.
  - intros H. destruct (IH H) as [r' [Hin Hr']]. exists r'. auto.
Qed.

Lemma isNamespaced_resources_None kind apiResources :
  isNamespaced_resources kind apiResources = None ->
  forall apiResource, In apiResource apiResources -> metav1.Kind apiResource <> kind.
Proof.
  induction apiResources as [|r rest IH]; cbn; [intros _ ? []|].
  destruct (String.eqb (metav1.Kind r) kind) eqn:Hk; [discriminate|].
  intros H r' [<-|Hin].
  - apply String.eqb_neq. exact Hk.
  - apply IH; assumption.
Qed.

Lemma isNamespaced_resources_find kind apiResources :
  isNamespaced_resources kind apiResources =
  option_map metav1.Namespaced
    (find (fun apiResource => String.eqb (metav1.Kind apiResource) kind) apiResources).
Proof.
  induction apiResources as [|r rest IH]; cbn; [reflexivity|].
  destruct (String.eqb (metav1.Kind r) kind); [reflexivity|exact IH].
Qed.

Lemma find_app_first {A} (p : A -> bool) (l1 l2 : list A) :
  find p (l1 ++ l2)%list =
  match find p l1 with Some a => Some a | None => find p l2 end.
Proof.
  induction l1 as [|a l1 IH]; cbn; [reflexivity|].
  destruct (p a); [reflexivity|exact IH].
Qed.

(** C4. For every GVK and every catalog with no entry recorded under the
    group/version string of the GVK that has its kind, [isNamespaced]
    returns no classification but an error, whose message names the type
    that was not found. *)
Theorem isNamespaced_absent gvk lists :
  (forall resourceList apiResource,
     In resourceList lists -> ~ matches gvk resourceList apiResource) ->
  isNamespaced gvk lists =
  (false,
   Some (errors_New
     ("unable to find type: " ++ schema.GroupVersionKind_String gvk ++ " in server"))).
Proof.
  unfold matches.
  induction lists as [|rl0 rest IH]; intros Hno; [reflexivity|].
  cbn [isNamespaced].
  destruct (String.eqb (metav1.GroupVersion rl0) (schema.GroupVersion_String gvk)) eqn:Hgv0.
  - apply String.eqb_eq in Hgv0.
    destruct (isNamespaced_resources (schema.Kind gvk) (metav1.APIResources rl0))
      as [namespaced|] eqn:Hscan.
    + apply isNamespaced_resources_Some in Hscan.
      destruct Hscan as [r0 [Hin0 [Hk0 _]]].
      exfalso. apply (Hno rl0 r0); cbn; auto.
    + apply IH. intros rl r Hin. apply Hno. right. exact Hin.
  - apply IH. intros rl r Hin. apply Hno. right. exact Hin.
Qed.

(** C10. [isNamespaced] is the first-match scan: only the resources of the
    lists whose [GroupVersion] string equals the group/version string of the
    GVK are looked at, so a kind recorded under another one is not matched,
    and among those resources the first of the kind, in catalog order,
    gives the result. *)
Theorem isNamespaced_first_match gvk lists :
  isNamespaced gvk lists = isNamespaced_firstMatch gvk lists.
Proof.
  unfold isNamespaced_firstMatch.
  induction lists as [|rl0 rest IH]; [reflexivity|].
  cbn [isNamespaced filter].
  destruct (String.eqb (metav1.GroupVersion rl0) (schema.GroupVersion_String gvk));
    [|exact IH].
  cbn [flat_map]. rewrite find_app_first, isNamespaced_resources_find.
  destruct (find _ (metav1.APIResources rl0)); [reflexivity|exact IH].
Qed.

(* ================================================================= *)
(** ** Properties of [GetNamespacesForMetrics] *)

(** C9. When [GetNamespacesForMetrics] returns no error, the lookup of the
    watch namespace returned none either, and the result is not empty: it
    is [operatorNs] alone when the watch namespace holds no comma, and the
    watch namespace split at its commas, without [operatorNs], when it
    holds one. *)
Theorem GetNamespacesForMetrics_success
  (Env : Type) (GetWatchNamespace : Env -> string * option error)
  operatorNs env ns :
  GetNamespacesForMetrics GetWatchNamespace operatorNs env = (ns, None) ->
  let watchNamespace := fst (GetWatchNamespace env) in
  snd (GetWatchNamespace env) = None /\
  ns <> [] /\
  (strings.Contains watchNamespace "," = false -> ns = [operatorNs]) /\
  (strings.Contains watchNamespace "," = true ->
   ns = strings.Split watchNamespace ",").
Proof.
  unfold GetNamespacesForMetrics.
  destruct (GetWatchNamespace env) as [watchNamespace [e|]]; [discriminate|].
  cbn [fst snd].
  destruct (strings.Contains watchNamespace ",") eqn:Hc;
    intros H; inversion H; subst; clear H; repeat split;
    try discriminate; try congruence.
  apply Split_comma_nonempty.
Qed.

(** The lookup decides: without an error from it the function succeeds. *)
Lemma GetNamespacesForMetrics_succeeds
  (Env : Type) (GetWatchNamespace : Env -> string * option error)
  operatorNs env :
  snd (GetWatchNamespace env) = None ->
  snd (GetNamespacesForMetrics GetWatchNamespace operatorNs env) = None.
Proof.
  unfold GetNamespacesForMetrics.
  destruct (GetWatchNamespace env) as [watchNamespace [e|]]; [discriminate|].
  reflexivity.
Qed.

(* ================================================================= *)
(** ** Further properties of [isNamespaced] *)

Lemma isNamespaced_found gvk lists namespaced :
  isNamespaced gvk lists = (namespaced, None) ->
  exists resourceList apiResource,
    In resourceList lists /\ matches gvk resourceList apiResource /\
    metav1.Namespaced apiResource = namespaced.
Proof.
  unfold matches.
  induction lists as [|rl rest IH]; cbn [isNamespaced]; [discriminate|].
  destruct (String.eqb (metav1.GroupVersion rl) (schema.GroupVersion_String gvk)) eqn:Hgv.
  - apply String.eqb_eq in Hgv.
    destruct (isNamespaced_resources (schema.Kind gvk) (metav1.APIResources rl))
      as [b|] eqn:Hscan.
    + intros H; inversion H; subst; clear H.
      apply isNamespaced_resources_Some in Hscan.
      destruct Hscan as [r [Hin [Hk Hb]]].
      exists rl, r. cbn; auto 6.
    + intros H. destruct (IH H) as [rl' [r' [Hin' H']]].
      exists rl', r'. cbn; auto.
  - intros H. destruct (IH H) as [rl' [r' [Hin' H']]].
    exists rl', r'. cbn; auto.
Qed.

Lemma isNamespaced_not_found gvk lists namespaced e :
  isNamespaced gvk lists = (namespaced, Some e) ->
  forall resourceList apiResource,
    In resourceList lists -> ~ matches gvk resourceList apiResource.
Proof.
  unfold matches.
  induction lists as [|rl rest IH]; cbn [isNamespaced]; [intros _ ? ? []|].
  destruct (String.eqb (metav1.GroupVersion rl) (schema.GroupVersion_String gvk)) eqn:Hgv.
  - destruct (isNamespaced_resources (schema.Kind gvk) (metav1.APIResources rl))
      as [b|] eqn:Hscan; [discriminate|].
    intros H rl' r' [<-|Hin] [Hgv' [Hr Hk]].
    + eapply isNamespaced_resources_None; eassumption.
    + exact (IH H rl' r' Hin (conj Hgv' (conj Hr Hk))).
  - apply String.eqb_neq in Hgv.
    intros H rl' r' [<-|Hin] [Hgv' [Hr Hk]].
    + contradiction.
    + exact (IH H rl' r' Hin (conj Hgv' (conj Hr Hk))).
Qed.

Lemma isNamespaced_resources_first kind resourcesBefore apiResource resourcesAfter :
  (forall apiResource', In apiResource' resourcesBefore ->
                        metav1.Kind apiResource' <> kind) ->
  metav1.Kind apiResource = kind ->
  isNamespaced_resources kind (resourcesBefore ++ apiResource :: resourcesAfter)%list
  = Some (metav1.Namespaced apiResource).
Proof.
  intros Hbefore Hk.
  induction resourcesBefore as [|r0 rs IH]; cbn.
  - rewrite Hk, String.eqb_refl. reflexivity.
  - destruct (String.eqb (metav1.Kind r0) kind) eqn:Hk0.
    + apply String.eqb_eq in Hk0. exfalso.
      exact (Hbefore r0 (or_introl eq_refl) Hk0).
    + apply IH. intros r' Hin. apply Hbefore. right. exact Hin.
Qed.

Lemma isNamespaced_resources_split kind apiResources namespaced :
  isNamespaced_resources kind apiResources = Some namespaced ->
  exists resourcesBefore apiResource resourcesAfter,
    apiResources = (resourcesBefore ++ apiResource :: resourcesAfter)%list /\
    (forall apiResource', In apiResource' resourcesBefore ->
                          metav1.Kind apiResource' <> kind) /\
    metav1.Kind apiResource = kind /\
    metav1.Namespaced apiResource = namespaced.
Proof.
  induction apiResources as [|r0 rs IH]; cbn; [discriminate|].
  destruct (String.eqb (metav1.Kind r0) kind) eqn:Hk0.
  - intros H; inversion H; subst; clear H. apply String.eqb_eq in Hk0.
    exists [], r0, rs. repeat split; trivial. intros r' [].
  - intros H. destruct (IH H) as [rb [r [ra [-> [Hb [Hk Hn]]]]]].
    exists (r0 :: rb), r, ra. repeat split; trivial.
    intros r' [<-|Hin]; [apply String.eqb_neq; exact Hk0|exact (Hb r' Hin)].
Qed.

(** Lists without a matching entry are passed over. *)
Lemma isNamespaced_skip gvk before rest :
  (forall resourceList apiResource,
     In resourceList before -> ~ matches gvk resourceList apiResource) ->
  isNamespaced gvk (before ++ rest)%list = isNamespaced gvk rest.
Proof.
  induction before as [|rl0 before IH]; intros Hno; [reflexivity|].
  cbn [app isNamespaced].
  assert (Hrest : isNamespaced gvk (before ++ rest)%list = isNamespaced gvk rest).
  { apply IH. intros rl r Hin. apply Hno. right. exact Hin. }
  destruct (String.eqb (metav1.GroupVersion rl0) (schema.GroupVersion_String gvk)) eqn:Hgv;
    [|exact Hrest].
  apply String.eqb_eq in Hgv.
  destruct (isNamespaced_resources (schema.Kind gvk) (metav1.APIResources rl0))
    as [b|] eqn:Hscan; [|exact Hrest].
  apply isNamespaced_resources_Some in Hscan. destruct Hscan as [r0 [Hin [Hk _]]].
  exfalso. apply (Hno rl0 r0); [left; reflexivity|].
  unfold matches. auto.
Qed.

(** A successful scan stopped at the first matching entry. *)
Lemma isNamespaced_first_found gvk lists namespaced :
  isNamespaced gvk lists = (namespaced, None) ->
  exists resourceList apiResource,
    firstMatch gvk lists resourceList apiResource /\
    metav1.Namespaced apiResource = namespaced.
Proof.
  induction lists as [|rl0 rest IH]; cbn [isNamespaced]; [discriminate|].
  assert (Hlater :
    (forall r', ~ matches gvk rl0 r') ->
    isNamespaced gvk rest = (namespaced, None) ->
    exists rl r, firstMatch gvk (rl0 :: rest) rl r /\ metav1.Namespaced r = namespaced).
  { intros Hno H. destruct (IH H) as [rl [r [Hfirst Hn]]].
    destruct Hfirst as [before [after [rb [ra [-> [Hres [Hgv [Hk [Hb Hrb]]]]]]]]].
    exists rl, r. split; [|exact Hn].
    exists (rl0 :: before), after, rb, ra. repeat split; trivial.
    intros rl' r' [<-|Hin]; [apply Hno|apply Hb; exact Hin]. }
  destruct (String.eqb (metav1.GroupVersion rl0) (schema.GroupVersion_String gvk)) eqn:Hgv.
  - apply String.eqb_eq in Hgv.
    destruct (isNamespaced_resources (schema.Kind gvk) (metav1.APIResources rl0))
      as [b|] eqn:Hscan.
    + intros H; inversion H; subst; clear H.
      apply isNamespaced_resources_split in Hscan.
      destruct Hscan as [rb [r [ra [Hres [Hb [Hk Hn]]]]]].
      exists rl0, r. split; [|exact Hn].
      exists [], rest, rb, ra. repeat split; trivial. intros rl' r' [].
    + apply Hlater. intros r' [_ [Hin Hk]].
      eapply isNamespaced_resources_None; eassumption.
  - apply Hlater. apply String.eqb_neq in Hgv. intros r' [Hgv' _]. contradiction.
Qed.

(** C3, as the code has it.  For every GVK and every catalog that
    contains an entry recorded under the group/version string of the GVK
    with its kind, the catalog has a first such entry in catalog order, and
    [isNamespaced] returns, without an error, the [Namespaced] flag recorded
    in that first entry; a later matching entry with another flag does not
    count. *)
Theorem isNamespaced_first_entry gvk lists :
  (exists resourceList apiResource,
     In resourceList lists /\ matches gvk resourceList apiResource) ->
  (exists resourceList apiResource, firstMatch gvk lists resourceList apiResource) /\
  (forall resourceList apiResource,
     firstMatch gvk lists resourceList apiResource ->
     isNamespaced gvk lists = (metav1.Namespaced apiResource, None)).
Proof.
  intros [rl [r [Hin Hm]]]. split.
  - destruct (isNamespaced gvk lists) as [b [e|]] eqn:H.
    + exfalso. exact (@isNamespaced_not_found gvk lists b e H rl r Hin Hm).
    + apply isNamespaced_first_found in H. destruct H as [rl1 [r1 [Hfirst _]]].
      exists rl1, r1. exact Hfirst.
  - intros rl1 r1 [before [after [rb [ra [-> [Hres [Hgv [Hk [Hb Hrb]]]]]]]]].
    rewrite (@isNamespaced_skip gvk before (rl1 :: after) Hb).
    cbn [isNamespaced]. rewrite Hgv, String.eqb_refl, Hres.
    rewrite (@isNamespaced_resources_first (schema.Kind gvk) rb r1 ra Hrb Hk).
    reflexivity.
Qed.

(** X8. [isNamespaced] succeeds exactly on the types the catalog lists:
    its error is nil if and only if some entry is recorded under the
    group/version string of the GVK with its kind; and whenever it fails,
    the flag it returns is [false] and the error names the GVK. *)
Theorem isNamespaced_succeeds_iff gvk lists :
  (snd (isNamespaced gvk lists) = None <->
   exists resourceList apiResource,
     In resourceList lists /\ matches gvk resourceList apiResource) /\
  (snd (isNamespaced gvk lists) <> None ->
   isNamespaced gvk lists = (false, Some (unableToFind gvk))).
Proof.
  destruct (isNamespaced gvk lists) as [b [e|]] eqn:H; cbn [snd].
  - split.
    + split; [discriminate|].
      intros [rl [r [Hin Hm]]]. exfalso.
      exact (@isNamespaced_not_found gvk lists b e H rl r Hin Hm).
    + intros _. apply isNamespaced_error in H. destruct H as [-> ->]. reflexivity.
  - split; [|congruence]. split; [intros _|reflexivity].
    apply isNamespaced_found in H. destruct H as [rl [r [Hin [Hm _]]]].
    exists rl, r. auto.
Qed.

(** X9. Catalogs in sequence: on two catalogs put one after the other,
    [isNamespaced] gives the answer of the first when the first lists the
    type, and the answer of the second otherwise. *)
Theorem isNamespaced_app gvk lists1 lists2 :
  isNamespaced gvk (lists1 ++ lists2)%list =
  match isNamespaced gvk lists1 with
  | (namespaced, None) => (namespaced, None)
  | (_, Some _) => isNamespaced gvk lists2
  end.
Proof.
  induction lists1 as [|rl rest IH]; [reflexivity|].
  cbn [app isNamespaced].
  destruct (String.eqb _ _); [|exact IH].
  destruct (isNamespaced_resources _ _); [reflexivity|exact IH].
Qed.

(** X10. What the answer of [isNamespaced] depends on.  The flag it
    returns and whether it returns an error depend on the GVK through its
    group/version string and its kind only: two GVKs with the same
    group/version string (such as group ["apps"], version ["v1"] and the
    empty group with version ["apps/v1"]) and the same kind get the same
    flag, and the lookup fails for both or for neither.  The error is
    another matter: when the lookup fails, each GVK gets the error that
    names it, group and version apart, so the two errors may differ. *)
Theorem isNamespaced_by_string_and_kind gvk1 gvk2 lists :
  schema.GroupVersion_String gvk1 = schema.GroupVersion_String gvk2 ->
  schema.Kind gvk1 = schema.Kind gvk2 ->
  fst (isNamespaced gvk1 lists) = fst (isNamespaced gvk2 lists) /\
  (snd (isNamespaced gvk1 lists) = None <-> snd (isNamespaced gvk2 lists) = None) /\
  (snd (isNamespaced gvk1 lists) <> None ->
   isNamespaced gvk1 lists = (false, Some (unableToFind gvk1)) /\
   isNamespaced gvk2 lists = (false, Some (unableToFind gvk2))).
Proof.
  intros Hgv Hk.
  assert (Hsame :
    fst (isNamespaced gvk1 lists) = fst (isNamespaced gvk2 lists) /\
    (snd (isNamespaced gvk1 lists) = None <-> snd (isNamespaced gvk2 lists) = None)).
  { induction lists as [|rl rest IH]; cbn [isNamespaced].
    - cbn. split; [reflexivity|split; discriminate].
    - rewrite Hgv, Hk.
      destruct (String.eqb _ _); [|exact IH].
      destruct (isNamespaced_resources _ _); [|exact IH].
      cbn. split; [reflexivity|tauto]. }
  destruct Hsame as [Hflag Hnil]. split; [exact Hflag|]. split; [exact Hnil|].
  intros Hfail.
  assert (Hfail2 : snd (isNamespaced gvk2 lists) <> None) by tauto.
  destruct (isNamespaced gvk1 lists) as [b1 [e1|]] eqn:H1; [|cbn in Hfail; congruence].
  destruct (isNamespaced gvk2 lists) as [b2 [e2|]] eqn:H2; [|cbn in Hfail2; congruence].
  apply isNamespaced_error in H1. apply isNamespaced_error in H2.
  destruct H1 as [-> ->]. destruct H2 as [-> ->]. split; reflexivity.
Qed.

(** Group ["apps"] with version ["v1"] and the empty group with version
    ["apps/v1"]: one group/version string, two errors. *)
Example isNamespaced_errors_differ :
  let gvk1 := {| schema.Group := "apps"; schema.Version := "v1";
                 schema.Kind := "Deployment" |} in
  let gvk2 := {| schema.Group := ""; schema.Version := "apps/v1";
                 schema.Kind := "Deployment" |} in
  schema.GroupVersion_String gvk1 = schema.GroupVersion_String gvk2 /\
  isNamespaced gvk1 [] = (false, Some (errors_New
    "unable to find type: apps/v1, Kind=Deployment in server")) /\
  isNamespaced gvk2 [] = (false, Some (errors_New
    "unable to find type: /apps/v1, Kind=Deployment in server")) /\
  isNamespaced gvk1 [] <> isNamespaced gvk2 [].
Proof. cbn. repeat split. discriminate. Qed.

(* ================================================================= *)
(** ** Further properties of [generateMetricFamilies] *)

Lemma length_append s1 s2 :
  String.length (s1 ++ s2) = String.length s1 + String.length s2.
Proof. induction s1 as [|c s1 IH]; cbn; [reflexivity|rewrite IH; reflexivity]. Qed.

Lemma append_inv_tail s1 : forall s2 t, s1 ++ t = s2 ++ t -> s1 = s2.
Proof.
  induction s1 as [|a s1 IH]; intros [|c s2] t H; cbn in H.
  - reflexivity.
  - exfalso. apply (f_equal String.length) in H.
    cbn in H. rewrite length_append in H. lia.
  - exfalso. apply (f_equal String.length) in H.
    cbn in H. rewrite length_append in H. lia.
  - inversion H; subst. f_equal. eapply IH; eassumption.
Qed.

(** X11. When two kinds share a metric name: the families generated for
    two kinds have the same name if and only if the kinds lowercase to the
    same string; kinds that differ in letter case only do collide. *)
Theorem generateMetricFamilies_same_name unicodeLower kind1 kind2 generator1 generator2 :
  In generator1 (generateMetricFamilies unicodeLower kind1) ->
  In generator2 (generateMetricFamilies unicodeLower kind2) ->
  (ksmetric.Name generator1 = ksmetric.Name generator2 <->
   strings.ToLower unicodeLower kind1 = strings.ToLower unicodeLower kind2).
Proof.
  intros [<-|[]] [<-|[]]. cbn [ksmetric.Name]. split.
  - apply append_inv_tail.
  - intros ->. reflexivity.
Qed.

Lemma lowerByte_not_upper c : isUpperByte (strings.lowerByte c) = false.
Proof.
  destruct c as [[|] [|] [|] [|] [|] [|] [|] [|]]; reflexivity.
Qed.

Lemma mapBytes_length f s : String.length (strings.mapBytes f s) = String.length s.
Proof. induction s as [|c s IH]; cbn; [reflexivity|rewrite IH; reflexivity]. Qed.

Lemma list_ascii_of_string_append s1 s2 :
  list_ascii_of_string (s1 ++ s2)
  = (list_ascii_of_string s1 ++ list_ascii_of_string s2)%list.
Proof. induction s1 as [|c s1 IH]; cbn; [reflexivity|rewrite IH; reflexivity]. Qed.

Lemma mapBytes_lowerByte_not_upper s c :
  In c (list_ascii_of_string (strings.mapBytes strings.lowerByte s)) ->
  isUpperByte c = false.
Proof.
  induction s as [|b s IH]; cbn; [intros []|].
  intros [<-|Hin]; [apply lowerByte_not_upper|exact (IH Hin)].
Qed.

(** X12. For a kind of ASCII bytes only, what the Unicode case mapping
    does is of no account: the metric name is the kind with each of its
    upper-case letters replaced, followed by ["_info"]; it is five bytes
    longer than the kind and holds no upper-case ASCII letter. *)
Theorem generateMetricFamilies_ascii_name unicodeLower kind generator :
  strings.isASCII kind = true ->
  In generator (generateMetricFamilies unicodeLower kind) ->
  ksmetric.Name generator = strings.mapBytes strings.lowerByte kind ++ "_info" /\
  String.length (ksmetric.Name generator) = String.length kind + 5 /\
  forall c, In c (list_ascii_of_string (ksmetric.Name generator)) ->
            isUpperByte c = false.
Proof.
  intros Hascii [<-|[]]. cbn [ksmetric.Name].
  rewrite (ToLower_ASCII unicodeLower kind Hascii).
  split; [reflexivity|]. split.
  - rewrite length_append, mapBytes_length. reflexivity.
  - intros c. rewrite list_ascii_of_string_append. intros Hin.
    apply in_app_or in Hin. destruct Hin as [Hin|Hin].
    + eapply mapBytes_lowerByte_not_upper; exact Hin.
    + cbn in Hin.
      destruct Hin as [<-|[<-|[<-|[<-|[<-|[]]]]]]; reflexivity.
Qed.

(* ================================================================= *)
(** ** Further properties of [GetNamespacesForMetrics] *)

Lemma Contains_comma_countByte s :
  strings.Contains s "," = false -> countByte "," s = 0.
Proof.
  induction s as [|c s IH]; [reflexivity|].
  rewrite Contains_comma_cons. cbn [countByte].
  destruct (Ascii.eqb "," c); cbn [orb]; [discriminate|].
  intros H. rewrite (IH H). reflexivity.
Qed.

Lemma Split_comma_length s :
  List.length (strings.Split s ",") = S (countByte "," s).
Proof.
  induction s as [|c s IH]; [reflexivity|].
  rewrite Split_comma_cons. cbn [countByte].
  destruct (Ascii.eqb "," c).
  - cbn [List.length]. rewrite IH. reflexivity.
  - pose proof (Split_comma_nonempty s) as Hne.
    destruct (strings.Split s ",") as [|field fields]; [congruence|].
    cbn [List.length] in *. exact IH.
Qed.

(** X13. How many namespaces come back: a successful
    [GetNamespacesForMetrics] returns one namespace more than the watch
    namespace has commas, so one for a value without a comma, the empty
    value included. *)
Theorem GetNamespacesForMetrics_length
  (Env : Type) (GetWatchNamespace : Env -> string * option error)
  operatorNs env ns :
  GetNamespacesForMetrics GetWatchNamespace operatorNs env = (ns, None) ->
  List.length ns = S (countByte "," (fst (GetWatchNamespace env))).
Proof.
  unfold GetNamespacesForMetrics.
  destruct (GetWatchNamespace env) as [watchNamespace [e|]]; [discriminate|].
  cbn [fst].
  destruct (strings.Contains watchNamespace ",") eqn:Hc;
    intros H; inversion H; subst; clear H.
  - apply Split_comma_length.
  - rewrite (Contains_comma_countByte _ Hc). reflexivity.
Qed.

(** X14. Nothing of a comma-separated watch namespace is lost or changed:
    when it holds a comma, the namespaces returned, joined with commas
    again, are the watch namespace itself; none of them holds a comma, and
    there are two at least.  Empty fields and blanks are kept as they
    are. *)
Theorem GetNamespacesForMetrics_join
  (Env : Type) (GetWatchNamespace : Env -> string * option error)
  operatorNs env ns :
  GetNamespacesForMetrics GetWatchNamespace operatorNs env = (ns, None) ->
  strings.Contains (fst (GetWatchNamespace env)) "," = true ->
  strings.Join ns "," = fst (GetWatchNamespace env) /\
  Forall (fun n => strings.Contains n "," = false) ns /\
  2 <= List.length ns.
Proof.
  unfold GetNamespacesForMetrics.
  destruct (GetWatchNamespace env) as [watchNamespace [e|]]; [discriminate|].
  cbn [fst]. intros H Hc. rewrite Hc in H. inversion H; subst; clear H.
  split; [apply Split_comma_Join|].
  split; [apply Split_comma_fields|apply Split_comma_two; exact Hc].
Qed.

(* ================================================================= *)
(** ** Concrete runs on the small cluster *)

Local Abbreviation run :=
  (GenerateAndServeCRMetrics (fun s => s)
     Cluster.getAPIResourceLists Cluster.newClientForGVK
     Cluster.NewNamespacedMetricsStores Cluster.NewClusterScopedMetricsStores).

(** A kind ["Memcached"] gets the label keys ["namespace"] and
    ["memcached"]: the second key is not ["name"]. *)
Lemma generateMetricFamilies_label_keys_not_name :
  exists generator family metric,
    generateMetricFamilies (fun s => s) "Memcached" = [generator] /\
    ksmetric.Name generator = "memcached_info" /\
    ksmetric.GenerateFunc generator
      (ObjUnstructured {| unstructured.GetNamespace := "default";
                          unstructured.GetName := "example-memcached" |})
      = Some family /\
    ksmetric.Metrics family = [metric] /\
    ksmetric.Value metric = 1%Z /\
    ksmetric.LabelValues metric = ["default"; "example-memcached"] /\
    ksmetric.LabelKeys metric = ["namespace"; "memcached"] /\
    ksmetric.LabelKeys metric <> ["namespace"; "name"].
Proof.
  do 3 eexists. repeat split. cbn. discriminate.
Qed.

Lemma GenerateAndServeCRMetrics_empty_namespaces_witness :
  run true [] [Cluster.memcached; Cluster.node] "0.0.0.0" 8686%Z 0 =
  (Some (errors_New
     "namespaces were empty; pass at least one namespace to generate custom resource metrics"),
   0, []).
Proof.
  apply GenerateAndServeCRMetrics_empty_namespaces. cbn. lia.
Defined.

(** On the catalog that lists the kind twice, the second entry matches and
    records [true], and [isNamespaced] returns [false], the flag of the
    first. *)
Lemma isNamespaced_not_every_matching_entry :
  exists resourceList apiResource,
    In resourceList Cluster.twice /\
    matches Cluster.memcached resourceList apiResource /\
    isNamespaced Cluster.memcached Cluster.twice = (false, None) /\
    isNamespaced Cluster.memcached Cluster.twice
      <> (metav1.Namespaced apiResource, None).
Proof.
  exists {| metav1.GroupVersion := "cache.example.com/v1alpha1";
            metav1.APIResources :=
              [ {| metav1.Name := "memcacheds"; metav1.Namespaced := false;
                   metav1.Kind := "Memcached" |};
                {| metav1.Name := "memcacheds/status"; metav1.Namespaced := true;
                   metav1.Kind := "Memcached" |} ] |},
         {| metav1.Name := "memcacheds/status"; metav1.Namespaced := true;
            metav1.Kind := "Memcached" |}.
  unfold matches; cbn. split; [left; reflexivity|].
  split; [split; [reflexivity|split; [right; left; reflexivity|reflexivity]]|].
  split; [reflexivity|discriminate].
Qed.

(** The hypothesis is met by the second entry; the flag is the first's. *)
Lemma isNamespaced_first_entry_witness :
  (exists resourceList apiResource,
     firstMatch Cluster.memcached Cluster.twice resourceList apiResource) /\
  (forall resourceList apiResource,
     firstMatch Cluster.memcached Cluster.twice resourceList apiResource ->
     isNamespaced Cluster.memcached Cluster.twice
       = (metav1.Namespaced apiResource, None)).
Proof.
  apply isNamespaced_first_entry.
  exists {| metav1.GroupVersion := "cache.example.com/v1alpha1";
            metav1.APIResources :=
              [ {| metav1.Name := "memcacheds"; metav1.Namespaced := false;
                   metav1.Kind := "Memcached" |};
                {| metav1.Name := "memcacheds/status"; metav1.Namespaced := true;
                   metav1.Kind := "Memcached" |} ] |},
         {| metav1.Name := "memcacheds/status"; metav1.Namespaced := true;
            metav1.Kind := "Memcached" |}.
  unfold matches; cbn. split; [left; reflexivity|].
  split; [reflexivity|]. split; [right; left; reflexivity|reflexivity].
Defined.

Lemma isNamespaced_absent_witness :
  isNamespaced Cluster.backup Cluster.catalog =
  (false,
   Some (errors_New
     "unable to find type: cache.example.com/v1alpha1, Kind=Backup in server")).
Proof.
  apply isNamespaced_absent.
  intros resourceList apiResource Hin [Hgv [Hr Hk]].
  cbn in Hin. destruct Hin as [<-|[<-|[<-|[]]]]; cbn in Hgv, Hr, Hk;
    try discriminate.
  destruct Hr as [<-|[<-|[]]]; discriminate.
Defined.

Lemma GetNamespacesForMetrics_success_witness :
  snd (Cluster.GetWatchNamespace (Some "ns1,ns2")) = None /\
  ["ns1"; "ns2"] <> [] /\
  (strings.Contains "ns1,ns2" "," = false -> ["ns1"; "ns2"] = ["operator-ns"]) /\
  (strings.Contains "ns1,ns2" "," = true ->
   ["ns1"; "ns2"] = strings.Split "ns1,ns2" ",").
Proof.
  apply (GetNamespacesForMetrics_success
           Cluster.GetWatchNamespace "operator-ns" (Some "ns1,ns2")).
  reflexivity.
Defined.

(** The second GVK is not in the catalog under its version: the run stops
    there, after the stores of the first. *)
Lemma GenerateAndServeCRMetrics_first_failure_aborts_witness :
  exists w' t,
    run true ["default"] [Cluster.memcached; Cluster.backup; Cluster.node]
        "0.0.0.0" 8686%Z 0
    = (Some (errors_New
         "unable to find type: cache.example.com/v1alpha1, Kind=Backup in server"),
       w', t) /\
    countEvents (@isStoreEvent _ _ _) t = 1 /\
    countEvents (@isServeEvent _ _ _) t = 0 /\
    countEvents (@isFetchEvent _ _ _) t = 1 /\
    countEvents (@isClientEvent _ _ _) t <= 2.
Proof.
  apply (@GenerateAndServeCRMetrics_first_failure_aborts _ _ _ _ _ _ _ _ _
           true ["default"] ([Cluster.memcached] ++ Cluster.backup :: [Cluster.node])
           "0.0.0.0" 8686%Z 0 _ 1).
  - discriminate.
  - eapply (FailClassify _ _ _ _ _ true ["default"] 0
              [Cluster.memcached] Cluster.backup [Cluster.node]);
      reflexivity.
Defined.


(** A namespaced and a cluster-scoped kind, two namespaces. *)
Lemma GenerateAndServeCRMetrics_stores_by_scope_witness :
  let t := snd (run true ["ns1"; "ns2"] [Cluster.memcached; Cluster.node]
                  "0.0.0.0" 8686%Z 0) in
  Forall2 (builtFor (fun s => s) Cluster.NewNamespacedMetricsStores
             Cluster.NewClusterScopedMetricsStores ["ns1"; "ns2"] Cluster.catalog)
    [Cluster.memcached; Cluster.node] (filter (@isStoreEvent _ _ _) t) /\
  In (EvGoServeMetrics bool string
        [ ["cache.example.com/v1alpha1/Memcached@ns1";
           "cache.example.com/v1alpha1/Memcached@ns2"];
          ["v1/Node"] ] "0.0.0.0" 8686%Z) t.
Proof.
  apply (GenerateAndServeCRMetrics_stores_by_scope
           (fun s => s)
           Cluster.getAPIResourceLists Cluster.newClientForGVK
           Cluster.NewNamespacedMetricsStores Cluster.NewClusterScopedMetricsStores
           true ["ns1"; "ns2"] [Cluster.memcached; Cluster.node] "0.0.0.0" 8686%Z 0
           (w' := 5)
           (t := snd (run true ["ns1"; "ns2"] [Cluster.memcached; Cluster.node]
                        "0.0.0.0" 8686%Z 0))).
  reflexivity.
Defined.

Lemma GenerateAndServeCRMetrics_serves_once_after_stores_witness :
  let t := snd (run true ["ns1"; "ns2"] [Cluster.memcached; Cluster.node]
                  "0.0.0.0" 8686%Z 0) in
  exists t0 allStores,
    t = (t0 ++ [EvLog bool string string "Starting serving custom resource metrics" [];
                EvGoServeMetrics bool string allStores "0.0.0.0" 8686%Z])%list /\
    countEvents (@isServeEvent _ _ _) t0 = 0 /\
    countEvents (@isStoreEvent _ _ _) t0 = 2 /\
    List.length allStores = 2 /\
    countEvents (@isServeEvent _ _ _) t = 1.
Proof.
  apply (GenerateAndServeCRMetrics_serves_once_after_stores
           (fun s => s)
           Cluster.getAPIResourceLists Cluster.newClientForGVK
           Cluster.NewNamespacedMetricsStores Cluster.NewClusterScopedMetricsStores
           true ["ns1"; "ns2"] [Cluster.memcached; Cluster.node] "0.0.0.0" 8686%Z 0
           (r := None) (w' := 5)); reflexivity.
Defined.

(** With the kind listed twice under one group/version, the first entry
    decides. *)
Example isNamespaced_first_of_two :
  isNamespaced Cluster.memcached
    [ {| metav1.GroupVersion := "cache.example.com/v1alpha1";
         metav1.APIResources :=
           [ {| metav1.Name := "memcacheds"; metav1.Namespaced := false;
                metav1.Kind := "Memcached" |};
             {| metav1.Name := "memcacheds/status"; metav1.Namespaced := true;
                metav1.Kind := "Memcached" |} ] |} ]
  = (false, None).
Proof. reflexivity. Qed.

(* ================================================================= *)
(** ** Further concrete runs *)

Lemma GenerateAndServeCRMetrics_error_origin_witness :
  let t := snd (run true ["default"] [Cluster.memcached; Cluster.backup]
                  "0.0.0.0" 8686%Z 0) in
  (["default"] = [] /\ unableToFind Cluster.backup = namespacesEmpty) \/
  (exists ev, In ev t /\ libraryError ev = Some (unableToFind Cluster.backup)) \/
  (exists gvk, In gvk [Cluster.memcached; Cluster.backup] /\
               unableToFind Cluster.backup = unableToFind gvk).
Proof.
  apply (@GenerateAndServeCRMetrics_error_origin bool string string nat (fun s : string => s)
           Cluster.getAPIResourceLists Cluster.newClientForGVK
           Cluster.NewNamespacedMetricsStores Cluster.NewClusterScopedMetricsStores
           true ["default"] [Cluster.memcached; Cluster.backup] "0.0.0.0" 8686%Z 0
           (unableToFind Cluster.backup) 4 _).
  reflexivity.
Defined.

Lemma GenerateAndServeCRMetrics_call_counts_witness :
  let gvks := [Cluster.memcached; Cluster.backup; Cluster.node] in
  let t := snd (run true ["default"] gvks "0.0.0.0" 8686%Z 0) in
  countEvents (@isFetchEvent _ _ _) t = 1 /\
  (exists reached,
     reached <= 3 /\
     Forall2 (clientFor (Client := string) (Store := string) true)
       (firstn reached gvks) (filter (@isClientEvent _ _ _) t)) /\
  countEvents (@isClientEvent _ _ _) t <= 3 /\
  countEvents (@isStoreEvent _ _ _) t <= countEvents (@isClientEvent _ _ _) t /\
  countEvents (@isClientEvent _ _ _) t <= S (countEvents (@isStoreEvent _ _ _) t) /\
  countEvents (@isServeEvent _ _ _) t <= 1.
Proof.
  apply (@GenerateAndServeCRMetrics_call_counts bool string string nat (fun s : string => s)
           Cluster.getAPIResourceLists Cluster.newClientForGVK
           Cluster.NewNamespacedMetricsStores Cluster.NewClusterScopedMetricsStores
           true ["default"] [Cluster.memcached; Cluster.backup; Cluster.node]
           "0.0.0.0" 8686%Z 0 (Some (unableToFind Cluster.backup)) 4 _).
  - discriminate.
  - reflexivity.
Defined.

Lemma GenerateAndServeCRMetrics_no_gvks_witness :
  run true ["default"] [] "0.0.0.0" 8686%Z 0 =
  (None, 1,
   [EvLog bool string string "Starting collecting operator types" [];
    EvGetAPIResourceLists string string true None;
    EvLog bool string string "Starting serving custom resource metrics" [];
    EvGoServeMetrics bool string [] "0.0.0.0" 8686%Z]).
Proof.
  apply (@GenerateAndServeCRMetrics_no_gvks bool string string nat (fun s : string => s)
           Cluster.getAPIResourceLists Cluster.newClientForGVK
           Cluster.NewNamespacedMetricsStores Cluster.NewClusterScopedMetricsStores
           true ["default"] "0.0.0.0" 8686%Z 0 Cluster.catalog 1).
  - discriminate.
  - reflexivity.
Defined.

Lemma GenerateAndServeCRMetrics_namespaces_unused_witness :
  run true ["ns1"] [Cluster.node; Cluster.backup] "0.0.0.0" 8686%Z 0
  = run true ["ns2"; "ns3"] [Cluster.node; Cluster.backup] "0.0.0.0" 8686%Z 0.
Proof.
  apply (@GenerateAndServeCRMetrics_namespaces_unused bool string string nat (fun s : string => s)
           Cluster.getAPIResourceLists Cluster.newClientForGVK
           Cluster.NewNamespacedMetricsStores Cluster.NewClusterScopedMetricsStores).
  - discriminate.
  - discriminate.
  - intros gvk [<-|[<-|[]]]; cbn; discriminate.
Defined.

Lemma GenerateAndServeCRMetrics_failed_prefix_witness :
  run true ["default"] ([Cluster.backup] ++ [Cluster.memcached]) "0.0.0.0" 8686%Z 0
  = (Some (unableToFind Cluster.backup), 2,
     snd (run true ["default"] [Cluster.backup] "0.0.0.0" 8686%Z 0)).
Proof.
  apply (@GenerateAndServeCRMetrics_failed_prefix bool string string nat (fun s : string => s)
           Cluster.getAPIResourceLists Cluster.newClientForGVK
           Cluster.NewNamespacedMetricsStores Cluster.NewClusterScopedMetricsStores).
  reflexivity.
Defined.

Lemma GetNamespacesForMetrics_then_GenerateAndServeCRMetrics_witness :
  (@None error = None ->
   countEvents (@isFetchEvent _ _ _)
     (snd (run true ["ns1"; "ns2"] [Cluster.memcached] "0.0.0.0" 8686%Z 0)) = 1) /\
  (@None error <> None ->
   run true ["ns1"; "ns2"] [Cluster.memcached] "0.0.0.0" 8686%Z 0
   = (Some namespacesEmpty, 0, [])).
Proof.
  apply (@GetNamespacesForMetrics_then_GenerateAndServeCRMetrics bool string string nat (fun s : string => s)
           Cluster.getAPIResourceLists Cluster.newClientForGVK
           Cluster.NewNamespacedMetricsStores Cluster.NewClusterScopedMetricsStores
           (option string) Cluster.GetWatchNamespace "operator-ns" (Some "ns1,ns2")).
  reflexivity.
Defined.

Lemma isNamespaced_succeeds_iff_witness :
  snd (isNamespaced Cluster.node Cluster.catalog) = None.
Proof.
  apply (proj1 (isNamespaced_succeeds_iff Cluster.node Cluster.catalog)).
  exists {| metav1.GroupVersion := "v1";
            metav1.APIResources :=
              [ {| metav1.Name := "pods"; metav1.Namespaced := true;
                   metav1.Kind := "Pod" |};
                {| metav1.Name := "nodes"; metav1.Namespaced := false;
                   metav1.Kind := "Node" |} ] |},
         {| metav1.Name := "nodes"; metav1.Namespaced := false; metav1.Kind := "Node" |}.
  unfold matches; cbn. split; [left; reflexivity|].
  split; [reflexivity|]. split; [right; left; reflexivity|reflexivity].
Defined.

(** The empty group with the version ["cache.example.com/v1alpha1"] has the
    group/version string of [Cluster.memcached]. *)
Lemma isNamespaced_by_string_and_kind_witness :
  let other := {| schema.Group := ""; schema.Version := "cache.example.com/v1alpha1";
                  schema.Kind := "Memcached" |} in
  fst (isNamespaced Cluster.memcached Cluster.catalog)
  = fst (isNamespaced other Cluster.catalog) /\
  (snd (isNamespaced Cluster.memcached Cluster.catalog) = None <->
   snd (isNamespaced other Cluster.catalog) = None) /\
  (snd (isNamespaced Cluster.memcached Cluster.catalog) <> None ->
   isNamespaced Cluster.memcached Cluster.catalog
     = (false, Some (unableToFind Cluster.memcached)) /\
   isNamespaced other Cluster.catalog = (false, Some (unableToFind other))).
Proof.
  apply isNamespaced_by_string_and_kind; reflexivity.
Defined.

(** ["Memcached"] and ["MEMCACHED"] get one metric name. *)
Lemma generateMetricFamilies_same_name_witness :
  let none := {| ksmetric.Name := ""; ksmetric.Type_ := ksmetric.Gauge;
                 ksmetric.Help := ""; ksmetric.GenerateFunc := fun _ => None |} in
  let generator1 := hd none (generateMetricFamilies (fun s => s) "Memcached") in
  let generator2 := hd none (generateMetricFamilies (fun s => s) "MEMCACHED") in
  ksmetric.Name generator1 = ksmetric.Name generator2 <->
  strings.ToLower (fun s => s) "Memcached" = strings.ToLower (fun s => s) "MEMCACHED".
Proof.
  apply generateMetricFamilies_same_name; left; reflexivity.
Defined.

Lemma generateMetricFamilies_ascii_name_witness :
  let none := {| ksmetric.Name := ""; ksmetric.Type_ := ksmetric.Gauge;
                 ksmetric.Help := ""; ksmetric.GenerateFunc := fun _ => None |} in
  let generator := hd none (generateMetricFamilies (fun s => s) "Memcached") in
  ksmetric.Name generator = strings.mapBytes strings.lowerByte "Memcached" ++ "_info" /\
  String.length (ksmetric.Name generator) = String.length "Memcached" + 5 /\
  forall c, In c (list_ascii_of_string (ksmetric.Name generator)) ->
            isUpperByte c = false.
Proof.
  apply (@generateMetricFamilies_ascii_name (fun s => s) "Memcached").
  - reflexivity.
  - left; reflexivity.
Defined.

Lemma GetNamespacesForMetrics_length_witness :
  List.length ["ns1"; ""; "ns3"]
  = S (countByte "," (fst (Cluster.GetWatchNamespace (Some "ns1,,ns3")))).
Proof.
  apply (GetNamespacesForMetrics_length
           Cluster.GetWatchNamespace "operator-ns" (Some "ns1,,ns3")).
  reflexivity.
Defined.

Lemma GetNamespacesForMetrics_join_witness :
  strings.Join ["ns1"; " ns2"; ""] ","
  = fst (Cluster.GetWatchNamespace (Some "ns1, ns2,")) /\
  Forall (fun n => strings.Contains n "," = false) ["ns1"; " ns2"; ""] /\
  2 <= List.length ["ns1"; " ns2"; ""].
Proof.
  apply (GetNamespacesForMetrics_join
           Cluster.GetWatchNamespace "operator-ns" (Some "ns1, ns2,"));
    reflexivity.
Defined.
